(** * thermal-controller-iot: sensor, store and monitor

    A shallow embedding of [thermal-controller-iot.py]: the BME280 sensor
    wrapper with its emulation fallback ([ThermalSensor]), the SQLite
    measurement table ([SimpleDatabase]) and the monitor with its web
    routes and its collection thread ([SensorMonitor]).

    Modelling conventions.
    - Python [int] is [Z]; Python [float] is an exact rational [Q] (no
      rounding error, no NaN, no infinities).
    - A dict whose keys are fixed by the program is a record; a key that
      may be absent is an [option] field ([d[k]] raises [KeyError] on
      [None], [d.get(k, v)] falls back to [v]).
    - The mutable world shared by every call (the module-level logger, the
      measurement table of the SQLite file, the monitor's [running] flag
      and the started collection threads) is the [State] threaded by the
      [Py] monad, which also carries raised exceptions.
    - What a call observes from outside the program (the clock, the random
      generator, the answers of the device) is an [Env]; one [Env] is the
      world during one call, the clock being read as a single instant.
    - SQLite calls themselves are taken to succeed: the table is a list
      of rows in insertion order. *)

From Stdlib Require Import ZArith QArith Qround List String Ascii Bool Lia Lqa.
From Stdlib Require Import Permutation Sorted.
Import ListNotations.

(** ** Exceptions, the logger and the [Py] monad *)

(** Instances of [Exception], i.e. what [except Exception] catches. *)
Inductive exn : Type :=
| ImportError
| OSError
| RuntimeError
| ValueError
| AttributeError (attr : string)
| KeyError (key : string)
| ZeroDivisionError
| FileNotFoundError
| YAMLError.

Inductive result (A : Type) : Type :=
| Ok (a : A)
| Raise (e : exn).
Arguments Ok {A} a.
Arguments Raise {A} e.

Inductive level : Type := DEBUG | INFO | WARNING | ERROR.

(** [levelno]: the numeric rank [logging] compares levels by. *)
Definition levelno (l : level) : Z :=
  match l with DEBUG => 10 | INFO => 20 | WARNING => 30 | ERROR => 40 end.

(** The messages the program formats, one constructor per call site. *)
Inductive message : Type :=
| Bme280Initialised (bus address : Z)
| Bme280InitError (e : exn)
| Bme280ReadError (e : exn)
| ConfigLoadError (e : exn)
| MonitorInitialised
| CollectionStarted
| CollectionData (temperature humidity : Q)
| CollectionError (e : exn)
| MonitorStopped.

Record LogRecord : Type := { levelname : level; msg : message }.

(** One row of table [measurements]. *)
Record Row : Type := {
  id : Z;
  timestamp : string;
  temperature : Q;
  humidity : Q;
  pressure : Q
}.

Record State : Type := {
  records : list LogRecord;      (* what the handlers of [logger] received *)
  measurements : list Row;       (* table [measurements], insertion order *)
  running : bool;                (* [self.running] of the monitor *)
  threads : nat                  (* collection threads started so far *)
}.

Definition Py (A : Type) : Type := State -> result A * State.

Definition ret {A} (a : A) : Py A := fun s => (Ok a, s).

Definition bind {A B} (c : Py A) (k : A -> Py B) : Py B :=
  fun s => match c s with
           | (Ok a, s') => k a s'
           | (Raise e, s') => (Raise e, s')
           end.

Definition raise {A} (e : exn) : Py A := fun s => (Raise e, s).

(** [try: c  except Exception as e: h e]. *)
Definition try_except {A} (c : Py A) (h : exn -> Py A) : Py A :=
  fun s => match c s with
           | (Ok a, s') => (Ok a, s')
           | (Raise e, s') => h e s'
           end.

(** The outcome of a call into a library or a device. *)
Definition call {A} (r : result A) : Py A := fun s => (r, s).

Declare Scope py_scope.
Delimit Scope py_scope with py.
Notation "x <- c ;; k" := (bind c (fun x => k))
  (at level 100, c at next level, right associativity) : py_scope.
Notation "c ;; k" := (bind c (fun _ => k))
  (at level 100, right associativity) : py_scope.
Open Scope py_scope.

(** [logging.basicConfig(level=logging.INFO, ...)]: a record below [INFO]
    is dropped. *)
Definition basicConfig_level : level := INFO.

(** The state once the handlers have received one more record. *)
Definition emit (r : LogRecord) (s : State) : State :=
  {| records := records s ++ [r];
     measurements := measurements s;
     running := running s;
     threads := threads s |}.

Definition log (l : level) (m : message) : Py unit :=
  fun s =>
    if (levelno basicConfig_level <=? levelno l)%Z
    then (Ok tt, emit {| levelname := l; msg := m |} s)
    else (Ok tt, s).

Definition logger_info := log INFO.
Definition logger_error := log ERROR.
Definition logger_debug := log DEBUG.

(** [d[key]] on a dict whose [key] may be absent. *)
Definition getitem {A} (key : string) (o : option A) : Py A :=
  match o with
  | Some v => ret v
  | None => raise (KeyError key)
  end.

(** [d.get(key, default)]. *)
Definition get {A} (o : option A) (default : A) : A :=
  match o with
  | Some v => v
  | None => default
  end.

(** [self.attr] on an attribute that may not have been assigned. *)
Definition getattr {A} (attr : string) (o : option A) : Py A :=
  match o with
  | Some v => ret v
  | None => raise (AttributeError attr)
  end.

(** [time.sleep(secs)]: a negative length raises [ValueError]. *)
Definition sleep (secs : Z) : Py unit :=
  if (secs <? 0)%Z then raise ValueError else ret tt.

(** ** Numbers *)

(** Round half to even, the rule of Python's [round]. *)
Definition round_half_even (x : Q) : Z :=
  let n := Qfloor x in
  match (x - inject_Z n ?= 1 # 2)%Q with
  | Lt => n
  | Gt => (n + 1)%Z
  | Eq => if Z.even n then n else (n + 1)%Z
  end.

(** [round(x, ndigits)] for a positive [ndigits]. *)
Definition round (x : Q) (ndigits : positive) : Q :=
  let p := (10 ^ ndigits)%positive in
  round_half_even (x * inject_Z (Zpos p)) # p.

(** [random.uniform(a, b)] is [a + (b - a) * random.random()]; [u] is the
    draw of [random.random()]. *)
Definition uniform (a b u : Q) : Q := (a + (b - a) * u)%Q.

(** ** [datetime] *)

Module datetime.

Record t : Type := {
  year : Z;
  month : Z;
  day : Z;
  hour : Z;
  minute : Z;
  second : Z;
  microsecond : Z
}.

Definition digit (d : Z) : ascii :=
  ascii_of_nat (48 + Z.to_nat (d mod 10)).

(** The last [width] decimal digits of [n], zero padded, before [acc]. *)
Fixpoint zfill (width : nat) (n : Z) (acc : string) : string :=
  match width with
  | O => acc
  | S w => zfill w (n / 10) (String (digit n) acc)
  end.

(** [datetime.isoformat()] of a naive datetime:
    [YYYY-MM-DDTHH:MM:SS], then [.ffffff] when the microsecond is not 0. *)
Definition isoformat (d : t) : string :=
  zfill 4 (year d) ("-" ++
  zfill 2 (month d) ("-" ++
  zfill 2 (day d) ("T" ++
  zfill 2 (hour d) (":" ++
  zfill 2 (minute d) (":" ++
  zfill 2 (second d)
    (if (microsecond d =? 0)%Z then ""
     else "." ++ zfill 6 (microsecond d) ""))))))%string.

End datetime.

(** ** JSON values and dicts in insertion order *)

Inductive json : Type :=
| JNull
| JBool (b : bool)
| JNumber (q : Q)
| JString (s : string).

Definition dict : Type := list (string * json).

Fixpoint lookup (key : string) (d : dict) : option json :=
  match d with
  | [] => None
  | (k, v) :: rest => if String.eqb key k then Some v else lookup key rest
  end.

(** ** [SensorReading] *)

Module SensorReading.

Record t : Type := {
  timestamp : datetime.t;
  temperature : Q;
  humidity : Q;
  pressure : Q;
  altitude : option Q
}.

(** Truth value of an [Optional[float]]: [None] and zero are false. *)
Definition truthy (o : option Q) : bool :=
  match o with
  | None => false
  | Some a => negb (Qeq_bool a 0)
  end.

Definition to_dict (self : t) : dict :=
  [ ("timestamp"%string, JString (datetime.isoformat (timestamp self)));
    ("temperature"%string, JNumber (round (temperature self) 2));
    ("humidity"%string, JNumber (round (humidity self) 2));
    ("pressure"%string, JNumber (round (pressure self) 2));
    ("altitude"%string,
      if truthy (altitude self)
      then match altitude self with
           | Some a => JNumber (round a 2)
           | None => JNull
           end
      else JNull) ].

End SensorReading.

(** ** Configuration *)

Module Config.

Record DeviceSection : Type := {
  name : option string;
  location : option string
}.

Record SensorSection : Type := {
  i2c_bus : option Z;
  i2c_address : option Z;
  sea_level_pressure : option Q;
  read_interval : option Z;
  temperature_offset : option Q;
  humidity_offset : option Q;
  pressure_offset : option Q
}.

Record LoggingSection : Type := {
  level : option string;
  file : option string;
  max_size_mb : option Z;
  backup_count : option Z
}.

Record t : Type := {
  device : option DeviceSection;
  sensor : option SensorSection;
  logging : option LoggingSection
}.

End Config.

(** ** The world outside the program *)

(** What the attributes of the driver object answer when they are read:
    a value, or an exception from the bus. *)
Record Bme280 : Type := {
  bme_temperature : result Q;
  bme_humidity : result Q;
  bme_pressure : result Q;
  bme_altitude : result Q
}.

Record Env : Type := {
  now : datetime.t;              (* [datetime.now()] *)
  hour_ago : datetime.t;         (* [datetime.fromtimestamp(now.timestamp() - 3600)] *)
  random : nat -> Q;             (* successive draws of [random.random()] *)
  bme280 : Bme280
}.

(** What construction of the driver meets: the import-time flag
    [BME280_AVAILABLE], [board.I2C()] and the driver's constructor at an
    address. *)
Record Platform : Type := {
  BME280_AVAILABLE : bool;
  board_I2C : result unit;
  Adafruit_BME280_I2C : Z -> result unit
}.

(** ** [ThermalSensor] *)

(** The driver object held in [self.sensor]. *)
Record Adafruit_BME280 : Type := {
  address : Z;
  sea_level_pressure : Q
}.

Module ThermalSensor.

Record t : Type := {
  config : Config.SensorSection;
  i2c_bus : Z;
  i2c_address : Z;
  sensor : option Adafruit_BME280;
  temp_offset : option Q;      (* [None]: attribute never assigned *)
  hum_offset : option Q;
  pres_offset : option Q
}.

Definition _init_sensor (self : t) (plat : Platform) : Py t :=
  try_except
    (if negb (BME280_AVAILABLE plat) then raise ImportError
     else
       call (board_I2C plat) ;;
       call (Adafruit_BME280_I2C plat (i2c_address self)) ;;
       let dev :=
         {| address := i2c_address self;
            sea_level_pressure :=
              get (Config.sea_level_pressure (config self)) (101325 # 100) |} in
       let temp_offset := get (Config.temperature_offset (config self)) 0%Q in
       let hum_offset := get (Config.humidity_offset (config self)) 0%Q in
       let pres_offset := get (Config.pressure_offset (config self)) 0%Q in
       logger_info (Bme280Initialised (i2c_bus self) (i2c_address self)) ;;
       ret {| config := config self;
              i2c_bus := i2c_bus self;
              i2c_address := i2c_address self;
              sensor := Some dev;
              temp_offset := Some temp_offset;
              hum_offset := Some hum_offset;
              pres_offset := Some pres_offset |})
    (fun e =>
       logger_error (Bme280InitError e) ;;
       ret {| config := config self;
              i2c_bus := i2c_bus self;
              i2c_address := i2c_address self;
              sensor := None;
              temp_offset := temp_offset self;
              hum_offset := hum_offset self;
              pres_offset := pres_offset self |}).

Definition __init__ (config : Config.t) (plat : Platform) : Py t :=
  section <- getitem "sensor" (Config.sensor config) ;;
  bus <- getitem "i2c_bus" (Config.i2c_bus section) ;;
  addr <- getitem "i2c_address" (Config.i2c_address section) ;;
  _init_sensor
    {| config := section;
       i2c_bus := bus;
       i2c_address := addr;
       sensor := None;
       temp_offset := None;
       hum_offset := None;
       pres_offset := None |}
    plat.

Definition base_temp : Q := 22.

(** The time-of-day tier of [_read_mock]. *)
Definition temp_variation (hour : Z) : Q :=
  if ((2 <=? hour) && (hour <=? 6))%Z then (-3)%Q
  else if ((12 <=? hour) && (hour <=? 16))%Z then 3%Q
  else 0%Q.

Definition _read_mock (self : t) (env : Env) : SensorReading.t :=
  let hour := datetime.hour (now env) in
  let temperature :=
    (base_temp + temp_variation hour
     + uniform (-(1 # 2)) (1 # 2) (random env 0%nat))%Q in
  let humidity := (45 + uniform (-5) 5 (random env 1%nat))%Q in
  let pressure := ((101325 # 100) + uniform (-10) 10 (random env 2%nat))%Q in
  {| SensorReading.timestamp := now env;
     SensorReading.temperature := round temperature 2;
     SensorReading.humidity := round humidity 2;
     SensorReading.pressure := round pressure 2;
     SensorReading.altitude :=
       Some (100 + uniform (-10) 10 (random env 3%nat))%Q |}.

Definition read (self : t) (env : Env) : Py (option SensorReading.t) :=
  match sensor self with
  | None => ret (Some (_read_mock self env))
  | Some _ =>
      try_except
        (raw_t <- call (bme_temperature (bme280 env)) ;;
         off_t <- getattr "temp_offset" (temp_offset self) ;;
         let temperature := (raw_t + off_t)%Q in
         raw_h <- call (bme_humidity (bme280 env)) ;;
         off_h <- getattr "hum_offset" (hum_offset self) ;;
         let humidity := (raw_h + off_h)%Q in
         raw_p <- call (bme_pressure (bme280 env)) ;;
         off_p <- getattr "pres_offset" (pres_offset self) ;;
         let pressure := (raw_p + off_p)%Q in
         altitude <- call (bme_altitude (bme280 env)) ;;
         ret (Some {| SensorReading.timestamp := now env;
                      SensorReading.temperature := temperature;
                      SensorReading.humidity := humidity;
                      SensorReading.pressure := pressure;
                      SensorReading.altitude := Some altitude |}))
        (fun e =>
           logger_error (Bme280ReadError e) ;;
           ret None)
  end.

Definition is_connected (self : t) (env : Env) : Py bool :=
  match sensor self with
  | None => ret false
  | Some _ =>
      try_except
        (call (bme_temperature (bme280 env)) ;;
         ret true)
        (fun _ => ret false)
  end.

End ThermalSensor.

(** A sensor object that holds a driver holds the three offsets of its
    configuration, an absent one counting as 0. *)
Definition calibrated_from (self : ThermalSensor.t) : Prop :=
  ThermalSensor.temp_offset self =
    Some (get (Config.temperature_offset (ThermalSensor.config self)) 0%Q) /\
  ThermalSensor.hum_offset self =
    Some (get (Config.humidity_offset (ThermalSensor.config self)) 0%Q) /\
  ThermalSensor.pres_offset self =
    Some (get (Config.pressure_offset (ThermalSensor.config self)) 0%Q).

(** ** [SimpleDatabase] *)

(** [ORDER BY]: a stable insertion sort, rows with equal keys staying in
    insertion order. SQL leaves the order among equal keys open, and no
    property stated below depends on it. *)
Section OrderBy.

Variable le : Row -> Row -> bool.

Fixpoint insert_row (x : Row) (l : list Row) : list Row :=
  match l with
  | [] => [x]
  | y :: rest => if le x y then x :: l else y :: insert_row x rest
  end.

Definition order_by (l : list Row) : list Row :=
  fold_right insert_row [] l.

End OrderBy.

(** [ORDER BY timestamp ASC] and [DESC]: the column holds ISO texts, which
    SQLite compares byte by byte. *)
Definition timestamp_asc (a b : Row) : bool :=
  String.leb (timestamp a) (timestamp b).

Definition timestamp_desc (a b : Row) : bool :=
  String.leb (timestamp b) (timestamp a).

(** The rowid SQLite gives the next row of an [INTEGER PRIMARY KEY] table:
    one more than the largest one in use, 1 in an empty table. *)
Definition next_rowid (rows : list Row) : Z :=
  match rows with
  | [] => 1
  | r :: rest => fold_left Z.max (map id rest) (id r) + 1
  end.

(** [LIMIT n]: a negative [n] is no limit. *)
Definition sql_limit (n : Z) (rows : list Row) : list Row :=
  if (n <? 0)%Z then rows else firstn (Z.to_nat n) rows.

Module SimpleDatabase.

Record t : Type := { db_path : string }.

(** [CREATE TABLE IF NOT EXISTS]: the table of the file is kept. *)
Definition init_db (self : t) : Py unit := ret tt.

Definition __init__ : Py t :=
  let self := {| db_path := "sensor_data.db" |} in
  init_db self ;;
  ret self.

Definition save_reading (self : t) (env : Env) (temp humidity pressure : Q)
  : Py unit :=
  fun s =>
    (Ok tt,
     {| records := records s;
        measurements :=
          measurements s ++
          [{| id := next_rowid (measurements s);
              timestamp := datetime.isoformat (now env);
              temperature := temp;
              humidity := humidity;
              pressure := pressure |}];
        running := running s;
        threads := threads s |}).

Definition get_recent (self : t) (limit : Z) : Py (list Row) :=
  fun s => (Ok (sql_limit limit (order_by timestamp_desc (measurements s))), s).

Definition get_last_hour (self : t) (env : Env) : Py (list Row) :=
  fun s =>
    let since := datetime.isoformat (hour_ago env) in
    (Ok (order_by timestamp_asc
           (filter (fun r => String.ltb since (timestamp r)) (measurements s))),
     s).

End SimpleDatabase.

(** ** [SensorMonitor] *)

(** The JSON bodies of the three API routes. *)
Record CurrentResponse : Type := {
  cur_success : bool;
  cur_sensor_connected : bool;
  cur_stats : option SensorReading.t
}.

Record HistoryResponse : Type := {
  hist_success : bool;
  hist_data : list Row
}.

Record HealthResponse : Type := {
  health_status : string;
  health_sensor_connected : bool;
  health_timestamp : string
}.

(** How far a collection thread got when the model stops following it. *)
Inductive thread_status : Type :=
| Returned      (* the loop saw [self.running] false and the thread ended *)
| Alive.        (* still inside the loop after the cycles followed *)

Module SensorMonitor.

Record t : Type := {
  config : Config.t;
  sensor : ThermalSensor.t;
  db : SimpleDatabase.t
}.

Definition _default_config : Config.t :=
  {| Config.device :=
       Some {| Config.name := Some "raspberry-pi-climate"%string;
               (* the source's location text, transliterated *)
               Config.location := Some "kabinet"%string |};
     Config.sensor :=
       Some {| Config.i2c_bus := Some 1%Z;
               Config.i2c_address := Some 118%Z;
               Config.sea_level_pressure := Some (101325 # 100);
               Config.read_interval := Some 10%Z;
               Config.temperature_offset := Some 0%Q;
               Config.humidity_offset := Some 0%Q;
               Config.pressure_offset := Some 0%Q |};
     Config.logging :=
       Some {| Config.level := Some "INFO"%string;
               Config.file := Some "./sensor_monitor.log"%string;
               Config.max_size_mb := Some 10%Z;
               Config.backup_count := Some 5%Z |} |}.

(** [fs path] is what [open(path)] followed by [yaml.safe_load] gives:
    the parsed document, or the exception of a missing or malformed
    file. *)
Definition load_config (fs : string -> result Config.t) (config_path : string)
  : Py Config.t :=
  try_except
    (config <- call (fs config_path) ;;
     ret config)
    (fun e =>
       logger_error (ConfigLoadError e) ;;
       ret _default_config).

Definition set_running (b : bool) : Py unit :=
  fun s => (Ok tt, {| records := records s;
                      measurements := measurements s;
                      running := b;
                      threads := threads s |}).

Definition get_running : Py bool := fun s => (Ok (running s), s).

Definition __init__ (fs : string -> result Config.t) (plat : Platform)
    (config_path : string) : Py t :=
  config <- load_config fs config_path ;;
  set_running false ;;
  sensor <- ThermalSensor.__init__ config plat ;;
  db <- SimpleDatabase.__init__ ;;
  logger_info MonitorInitialised ;;
  ret {| config := config; sensor := sensor; db := db |}.

Definition api_current (self : t) (env : Env) : Py CurrentResponse :=
  reading <- ThermalSensor.read (sensor self) env ;;
  match reading with
  | Some r =>
      SimpleDatabase.save_reading (db self) env
        (SensorReading.temperature r) (SensorReading.humidity r)
        (SensorReading.pressure r)
  | None => ret tt
  end ;;
  connected <- ThermalSensor.is_connected (sensor self) env ;;
  ret {| cur_success := true;
         cur_sensor_connected := connected;
         cur_stats := reading |}.

(** [config['sensor']['read_interval']]. *)
Definition read_interval (self : t) : Py Z :=
  section <- getitem "sensor" (Config.sensor (config self)) ;;
  getitem "read_interval" (Config.read_interval section).

(** [a // b] on ints. *)
Definition floordiv (a b : Z) : Py Z :=
  if (b =? 0)%Z then raise ZeroDivisionError else ret (a / b)%Z.

(** [hours_arg] is the integer value of the [hours] query parameter,
    [None] when the request has none. The test ['request' in locals()]
    holds, [request] having just been imported inside the function, so
    the parameter is always consulted. *)
Definition api_history (self : t) (env : Env) (hours_arg : option Z)
  : Py HistoryResponse :=
  let hours := get hours_arg 1%Z in
  data <-
    (if (hours =? 1)%Z then SimpleDatabase.get_last_hour (db self) env
     else
       interval <- read_interval self ;;
       limit <- floordiv (hours * 60) interval ;;
       SimpleDatabase.get_recent (db self) limit) ;;
  ret {| hist_success := true; hist_data := data |}.

Definition api_health (self : t) (env : Env) : Py HealthResponse :=
  connected <- ThermalSensor.is_connected (sensor self) env ;;
  ret {| health_status := "ok";
         health_sensor_connected := connected;
         health_timestamp := datetime.isoformat (now env) |}.

(** One pass through the body of [while self.running]. *)
Definition cycle (self : t) (interval : Z) (env : Env) : Py unit :=
  try_except
    (reading <- ThermalSensor.read (sensor self) env ;;
     match reading with
     | Some r =>
         logger_debug (CollectionData (SensorReading.temperature r)
                                      (SensorReading.humidity r))
     | None => ret tt
     end ;;
     sleep interval)
    (fun e =>
       logger_error (CollectionError e) ;;
       sleep interval).

(** [while self.running], followed for one cycle per element of
    [cycles], the world during that cycle. *)
Fixpoint while_running (self : t) (interval : Z) (cycles : list Env)
  : Py thread_status :=
  match cycles with
  | [] => ret Alive
  | env :: rest =>
      go <- get_running ;;
      if go then cycle self interval env ;; while_running self interval rest
      else ret Returned
  end.

Definition _data_collection_thread (self : t) (cycles : list Env)
  : Py thread_status :=
  logger_info CollectionStarted ;;
  interval <- read_interval self ;;
  while_running self interval cycles.

(** [threading.Thread(target=self._data_collection_thread).start()]. *)
Definition thread_start : Py unit :=
  fun s => (Ok tt, {| records := records s;
                      measurements := measurements s;
                      running := running s;
                      threads := S (threads s) |}).

Definition start (self : t) : Py unit :=
  set_running true ;;
  thread_start.

Definition stop (self : t) : Py unit :=
  set_running false ;;
  logger_info MonitorStopped.

End SensorMonitor.

(** ** Sample worlds *)

Definition state0 : State :=
  {| records := []; measurements := []; running := false; threads := 0 |}.

Definition noon : datetime.t :=
  {| datetime.year := 2024; datetime.month := 3; datetime.day := 9;
     datetime.hour := 12; datetime.minute := 0; datetime.second := 0;
     datetime.microsecond := 0 |}.

Definition eleven : datetime.t :=
  {| datetime.year := 2024; datetime.month := 3; datetime.day := 9;
     datetime.hour := 11; datetime.minute := 0; datetime.second := 0;
     datetime.microsecond := 0 |}.

(** A device that answers every read. *)
Definition bme_up : Bme280 :=
  {| bme_temperature := Ok (2150 # 100);
     bme_humidity := Ok 40;
     bme_pressure := Ok 1000;
     bme_altitude := Ok 120 |}.

(** A device whose bus fails on every read. *)
Definition bme_down : Bme280 :=
  {| bme_temperature := Raise OSError;
     bme_humidity := Raise OSError;
     bme_pressure := Raise OSError;
     bme_altitude := Raise OSError |}.

Definition env_noon : Env :=
  {| now := noon; hour_ago := eleven; random := fun _ => 1 # 4; bme280 := bme_up |}.

(** At 11:00 sharp, an hour before [env_noon]. *)
Definition env_eleven : Env :=
  {| now := eleven; hour_ago := eleven; random := fun _ => 1 # 4; bme280 := bme_up |}.

(** The driver library imported and the device present. *)
Definition with_driver : Platform :=
  {| BME280_AVAILABLE := true;
     board_I2C := Ok tt;
     Adafruit_BME280_I2C := fun _ => Ok tt |}.

(** No driver library: emulation mode. *)
Definition no_driver : Platform :=
  {| BME280_AVAILABLE := false;
     board_I2C := Raise RuntimeError;
     Adafruit_BME280_I2C := fun _ => Raise RuntimeError |}.

(** A configuration with calibration offsets. *)
Definition calibrated : Config.t :=
  {| Config.device := None;
     Config.sensor :=
       Some {| Config.i2c_bus := Some 1%Z;
               Config.i2c_address := Some 119%Z;
               Config.sea_level_pressure := None;
               Config.read_interval := Some 30%Z;
               Config.temperature_offset := Some (-(1 # 2));
               Config.humidity_offset := Some 2;
               Config.pressure_offset := None |};
     Config.logging := None |}.

(** No configuration file anywhere. *)
Definition no_files : string -> result Config.t :=
  fun _ => Raise FileNotFoundError.

(** The sensor object of emulation mode, as [ThermalSensor.__init__]
    leaves it when the driver is missing. *)
Definition emulated : ThermalSensor.t :=
  {| ThermalSensor.config :=
       {| Config.i2c_bus := Some 1%Z;
          Config.i2c_address := Some 118%Z;
          Config.sea_level_pressure := Some (101325 # 100);
          Config.read_interval := Some 10%Z;
          Config.temperature_offset := Some 0%Q;
          Config.humidity_offset := Some 0%Q;
          Config.pressure_offset := Some 0%Q |};
     ThermalSensor.i2c_bus := 1;
     ThermalSensor.i2c_address := 118;
     ThermalSensor.sensor := None;
     ThermalSensor.temp_offset := None;
     ThermalSensor.hum_offset := None;
     ThermalSensor.pres_offset := None |}.

(** The monitor of emulation mode with the built-in configuration. *)
Definition emulated_monitor : SensorMonitor.t :=
  {| SensorMonitor.config := SensorMonitor._default_config;
     SensorMonitor.sensor := emulated;
     SensorMonitor.db := {| SimpleDatabase.db_path := "sensor_data.db" |} |}.

(** The sensor object and the state [ThermalSensor.__init__] leaves for
    [calibrated] when the driver is there. *)
Definition calibrated_sensor : ThermalSensor.t :=
  Eval vm_compute in
    match fst (ThermalSensor.__init__ calibrated with_driver state0) with
    | Ok self => self
    | Raise _ => emulated
    end.

Definition calibrated_state : State :=
  Eval vm_compute in snd (ThermalSensor.__init__ calibrated with_driver state0).

Definition calibrated_driver : Adafruit_BME280 :=
  {| address := 119; sea_level_pressure := 101325 # 100 |}.

Definition reading_at_sea_level : SensorReading.t :=
  {| SensorReading.timestamp := noon;
     SensorReading.temperature := 20;
     SensorReading.humidity := 50;
     SensorReading.pressure := 1013;
     SensorReading.altitude := Some 0%Q |}.

Definition database0 : SimpleDatabase.t :=
  {| SimpleDatabase.db_path := "sensor_data.db" |}.

(** The table after one reading was saved at 11:00 sharp. *)
Definition state_eleven : State :=
  Eval vm_compute in
    snd (SimpleDatabase.save_reading database0 env_eleven 20 50 1000 state0).

Definition row_eleven : Row :=
  {| id := 1; timestamp := "2024-03-09T11:00:00";
     temperature := 20; humidity := 50; pressure := 1000 |}.

(** The monitor running, nothing stored yet. *)
Definition state_running : State :=
  {| records := []; measurements := []; running := true; threads := 1 |}.

(** ** Calendar order *)

(** First difference decides. *)
Definition lex (c1 c2 : comparison) : comparison :=
  match c1 with
  | Eq => c2
  | _ => c1
  end.

(** The field ranges of a [datetime] object. *)
Definition datetime_valid (d : datetime.t) : Prop :=
  (1 <= datetime.year d <= 9999)%Z /\
  (1 <= datetime.month d <= 12)%Z /\
  (1 <= datetime.day d <= 31)%Z /\
  (0 <= datetime.hour d <= 23)%Z /\
  (0 <= datetime.minute d <= 59)%Z /\
  (0 <= datetime.second d <= 59)%Z /\
  (0 <= datetime.microsecond d <= 999999)%Z.

(** Order of two naive datetimes: field by field, year first. *)
Definition datetime_compare (d1 d2 : datetime.t) : comparison :=
  lex (datetime.year d1 ?= datetime.year d2)%Z
  (lex (datetime.month d1 ?= datetime.month d2)%Z
  (lex (datetime.day d1 ?= datetime.day d2)%Z
  (lex (datetime.hour d1 ?= datetime.hour d2)%Z
  (lex (datetime.minute d1 ?= datetime.minute d2)%Z
  (lex (datetime.second d1 ?= datetime.second d2)%Z
       (datetime.microsecond d1 ?= datetime.microsecond d2)%Z))))).

(** The row [save_reading] writes. *)
Definition saved_row (env : Env) (temp hum pres : Q) (s : State) : Row :=
  {| id := next_rowid (measurements s);
     timestamp := datetime.isoformat (now env);
     temperature := temp;
     humidity := hum;
     pressure := pres |}.

(** ** [main] *)

Record Args : Type := {
  args_config : string;          (* [--config], default [config.yaml] *)
  args_test_sensor : bool        (* [--test-sensor] *)
}.

(** The lines [main] prints in test mode. *)
Inductive printed : Type :=
| PrintTesting
| PrintReading (i : Z) (temperature humidity pressure : Q)
| PrintReadError
| PrintConnected (b : bool).

(** The dict [{}]. *)
Definition empty_config : Config.t :=
  {| Config.device := None; Config.sensor := None; Config.logging := None |}.

(** [for i in range(...)] of the test mode, from index [i] for [n] more
    rounds; [world k] is the world during round [k]. The printed lines
    are collected in order. *)
Fixpoint test_rounds (sensor : ThermalSensor.t) (world : nat -> Env)
    (i n : nat) : Py (list printed) :=
  match n with
  | O => ret []
  | S n' =>
      reading <- ThermalSensor.read sensor (world i) ;;
      let line :=
        match reading with
        | Some r =>
            PrintReading (Z.of_nat i + 1) (SensorReading.temperature r)
              (SensorReading.humidity r) (SensorReading.pressure r)
        | None => PrintReadError
        end in
      sleep 2 ;;
      rest <- test_rounds sensor world (S i) n' ;;
      ret (line :: rest)
  end.

(** [main], returning what it printed. [path_exists] is
    [Path(...).exists()], [fs] is opening and parsing a file as in
    [load_config], [world 5] is the world at the final probe. *)
Definition main (args : Args) (path_exists : string -> bool)
    (fs : string -> result Config.t) (plat : Platform) (world : nat -> Env)
  : Py (list printed) :=
  if args_test_sensor args then
    config <-
      (if path_exists (args_config args) then call (fs (args_config args))
       else ret empty_config) ;;
    sensor <- ThermalSensor.__init__ config plat ;;
    lines <- test_rounds sensor world 0 5 ;;
    connected <- ThermalSensor.is_connected sensor (world 5%nat) ;;
    ret (PrintTesting :: lines ++ [PrintConnected connected])
  else
    monitor <- SensorMonitor.__init__ fs plat (args_config args) ;;
    SensorMonitor.start monitor ;;
    ret [].

(** ** More sample worlds *)

Definition half_past_eleven : datetime.t :=
  {| datetime.year := 2024; datetime.month := 3; datetime.day := 9;
     datetime.hour := 11; datetime.minute := 30; datetime.second := 0;
     datetime.microsecond := 250000 |}.

Definition env_half_past : Env :=
  {| now := half_past_eleven; hour_ago := eleven;
     random := fun _ => 1 # 4; bme280 := bme_up |}.

(** A configuration whose read interval is negative. *)
Definition negative_interval : Config.t :=
  {| Config.device := None;
     Config.sensor :=
       Some {| Config.i2c_bus := Some 1%Z;
               Config.i2c_address := Some 118%Z;
               Config.sea_level_pressure := None;
               Config.read_interval := Some (-5)%Z;
               Config.temperature_offset := None;
               Config.humidity_offset := None;
               Config.pressure_offset := None |};
     Config.logging := None |}.

Definition negative_interval_monitor : SensorMonitor.t :=
  {| SensorMonitor.config := negative_interval;
     SensorMonitor.sensor := emulated;
     SensorMonitor.db := database0 |}.

(** A configuration whose read interval is zero. *)
Definition zero_interval : Config.t :=
  {| Config.device := None;
     Config.sensor :=
       Some {| Config.i2c_bus := Some 1%Z;
               Config.i2c_address := Some 118%Z;
               Config.sea_level_pressure := None;
               Config.read_interval := Some 0%Z;
               Config.temperature_offset := None;
               Config.humidity_offset := None;
               Config.pressure_offset := None |};
     Config.logging := None |}.

Definition zero_interval_monitor : SensorMonitor.t :=
  {| SensorMonitor.config := zero_interval;
     SensorMonitor.sensor := emulated;
     SensorMonitor.db := database0 |}.

(** A file that parses to a document without a [sensor] section. *)
Definition only_device : Config.t :=
  {| Config.device :=
       Some {| Config.name := Some "pi"%string; Config.location := None |};
     Config.sensor := None;
     Config.logging := None |}.

Definition fs_only_device : string -> result Config.t :=
  fun _ => Ok only_device.

Definition fs_calibrated : string -> result Config.t :=
  fun _ => Ok calibrated.

Definition test_args : Args :=
  {| args_config := "config.yaml"; args_test_sensor := true |}.

Definition run_args : Args :=
  {| args_config := "config.yaml"; args_test_sensor := false |}.

(** The table of [state_eleven] after a second reading was saved at
    11:30:00.25. *)
Definition state_half_past : State :=
  Eval vm_compute in
    snd (SimpleDatabase.save_reading database0 env_half_past 21 48 1001
           state_eleven).

Definition row_half_past : Row :=
  Eval vm_compute in saved_row env_half_past 21 48 1001 state_eleven.

(** * Properties *)

(** ** The [Py] monad *)

Lemma bind_ok {A B} (c : Py A) (k : A -> Py B) (s s' : State) (a : A) :
  c s = (Ok a, s') -> bind c k s = k a s'.
Proof. intros H. unfold bind. now rewrite H. Qed.

Lemma bind_raise {A B} (c : Py A) (k : A -> Py B) (s s' : State) (e : exn) :
  c s = (Raise e, s') -> bind c k s = (Raise e, s').
Proof. intros H. unfold bind. now rewrite H. Qed.

(** A record that passes the level filter lands at the end of the log and
    touches nothing else. *)
Lemma log_frame (l : level) (m : message) (s : State) :
  exists s',
    log l m s = (Ok tt, s') /\
    measurements s' = measurements s /\
    running s' = running s /\
    threads s' = threads s.
Proof.
  unfold log.
  destruct (levelno basicConfig_level <=? levelno l)%Z; eexists; eauto.
Qed.

Lemma logger_debug_dropped (m : message) (s : State) :
  logger_debug m s = (Ok tt, s).
Proof. reflexivity. Qed.

(** ** Rounding *)

Lemma round_half_even_floor (x : Q) :
  (Qfloor x <= round_half_even x <= Qfloor x + 1)%Z.
Proof.
  unfold round_half_even.
  destruct (x - inject_Z (Qfloor x) ?= 1 # 2)%Q; try lia.
  destruct (Z.even (Qfloor x)); lia.
Qed.

Lemma round_half_even_lower (x : Q) (m : Z) :
  (inject_Z m <= x)%Q -> (m <= round_half_even x)%Z.
Proof.
  intros H. apply Qfloor_resp_le in H. rewrite Qfloor_Z in H.
  pose proof (round_half_even_floor x). lia.
Qed.

Lemma round_half_even_upper (x : Q) (m : Z) :
  (x <= inject_Z m)%Q -> (round_half_even x <= m)%Z.
Proof.
  intros H.
  assert (Hf : (Qfloor x <= m)%Z).
  { apply Qfloor_resp_le in H. now rewrite Qfloor_Z in H. }
  destruct (Z.eq_dec (Qfloor x) m) as [E | NE].
  - unfold round_half_even. rewrite E.
    assert (Hlt : (x - inject_Z m < 1 # 2)%Q) by lra.
    rewrite Qlt_alt in Hlt. rewrite Hlt. lia.
  - pose proof (round_half_even_floor x). lia.
Qed.

(** Rounding to two decimals stays inside any interval whose ends are
    hundredths. *)
Lemma round_2_bounds (x : Q) (a b : Z) :
  (a # 100 <= x)%Q -> (x <= b # 100)%Q ->
  (a # 100 <= round x 2 /\ round x 2 <= b # 100)%Q.
Proof.
  intros Ha Hb. unfold round.
  change (10 ^ 2)%positive with 100%positive.
  assert (La : (inject_Z a <= x * inject_Z 100)%Q).
  { unfold Qle in *. simpl in *. lia. }
  assert (Lb : (x * inject_Z 100 <= inject_Z b)%Q).
  { unfold Qle in *. simpl in *. lia. }
  apply round_half_even_lower in La. apply round_half_even_upper in Lb.
  unfold Qle; simpl. lia.
Qed.

(** ** Text order of timestamps *)

Lemma ascii_compare_trans (a b c : ascii) (o : comparison) :
  Ascii.compare a b = o -> Ascii.compare b c = o -> Ascii.compare a c = o.
Proof.
  unfold Ascii.compare. intros H1 H2. destruct o.
  - apply N.compare_eq_iff in H1, H2. apply N.compare_eq_iff. congruence.
  - rewrite N.compare_lt_iff in *. lia.
  - rewrite N.compare_gt_iff in *. lia.
Qed.

Lemma string_compare_trans (o : comparison) :
  forall a b c : string,
    String.compare a b = o -> String.compare b c = o -> String.compare a c = o.
Proof.
  induction a as [| x a IH]; intros [| y b] [| z c]; simpl; try congruence.
  destruct (Ascii.compare x y) eqn:Exy, (Ascii.compare y z) eqn:Eyz;
    intros H1 H2; try congruence.
  - rewrite (ascii_compare_trans _ _ _ _ Exy Eyz). eauto.
  - apply Ascii.compare_eq_iff in Exy. subst x. now rewrite Eyz.
  - apply Ascii.compare_eq_iff in Exy. subst x. now rewrite Eyz.
  - apply Ascii.compare_eq_iff in Eyz. subst z. now rewrite Exy.
  - now rewrite (ascii_compare_trans _ _ _ _ Exy Eyz).
  - apply Ascii.compare_eq_iff in Eyz. subst z. now rewrite Exy.
  - now rewrite (ascii_compare_trans _ _ _ _ Exy Eyz).
Qed.

Lemma string_leb_trans (a b c : string) :
  String.leb a b = true -> String.leb b c = true -> String.leb a c = true.
Proof.
  unfold String.leb.
  destruct (String.compare a b) eqn:Eab; try discriminate;
    destruct (String.compare b c) eqn:Ebc; try discriminate; intros _ _.
  - now rewrite (string_compare_trans _ _ _ _ Eab Ebc).
  - apply String.compare_eq_iff in Eab. subst b. now rewrite Ebc.
  - apply String.compare_eq_iff in Ebc. subst c. now rewrite Eab.
  - now rewrite (string_compare_trans _ _ _ _ Eab Ebc).
Qed.

Lemma string_ltb_leb (a b : string) :
  String.ltb a b = true -> String.leb a b = true.
Proof.
  unfold String.ltb, String.leb. now destruct (String.compare a b).
Qed.

(** ** [ORDER BY] *)

Section OrderByFacts.

Variable le : Row -> Row -> bool.
Hypothesis le_total : forall a b, le a b = true \/ le b a = true.
Hypothesis le_trans : forall a b c, le a b = true -> le b c = true -> le a c = true.

Let R (a b : Row) : Prop := le a b = true.

Lemma insert_row_perm (x : Row) (l : list Row) :
  Permutation (insert_row le x l) (x :: l).
Proof.
  induction l as [| y l IH]; simpl; auto.
  destruct (le x y); auto.
  rewrite IH. apply perm_swap.
Qed.

Lemma order_by_perm (l : list Row) : Permutation (order_by le l) l.
Proof.
  induction l as [| x l IH]; simpl; auto.
  rewrite insert_row_perm. now constructor.
Qed.

Lemma insert_row_hd (a x : Row) (l : list Row) :
  R a x -> HdRel R a l -> HdRel R a (insert_row le x l).
Proof.
  intros Hax Hl. destruct l as [| y l]; simpl.
  - now constructor.
  - destruct (le x y); constructor; trivial. now inversion Hl.
Qed.

Lemma insert_row_sorted (x : Row) (l : list Row) :
  Sorted R l -> Sorted R (insert_row le x l).
Proof.
  induction 1 as [| y l Hs IH Hhd]; simpl.
  - repeat constructor.
  - destruct (le x y) eqn:E.
    + repeat constructor; trivial.
    + constructor; trivial.
      apply insert_row_hd; trivial.
      destruct (le_total x y) as [H | H]; [congruence | exact H].
Qed.

Lemma order_by_sorted (l : list Row) : Sorted R (order_by le l).
Proof.
  induction l as [| x l IH]; simpl.
  - constructor.
  - now apply insert_row_sorted.
Qed.

Lemma order_by_strongly_sorted (l : list Row) :
  StronglySorted (fun a b => le a b = true) (order_by le l).
Proof.
  apply Sorted_StronglySorted.
  - intros a b c. apply le_trans.
  - apply order_by_sorted.
Qed.

End OrderByFacts.

Lemma timestamp_asc_total (a b : Row) :
  timestamp_asc a b = true \/ timestamp_asc b a = true.
Proof. apply String.leb_total. Qed.

Lemma timestamp_asc_trans (a b c : Row) :
  timestamp_asc a b = true -> timestamp_asc b c = true -> timestamp_asc a c = true.
Proof. apply string_leb_trans. Qed.

Lemma timestamp_desc_total (a b : Row) :
  timestamp_desc a b = true \/ timestamp_desc b a = true.
Proof. apply String.leb_total. Qed.

Lemma timestamp_desc_trans (a b c : Row) :
  timestamp_desc a b = true -> timestamp_desc b c = true -> timestamp_desc a c = true.
Proof. intros H1 H2. exact (string_leb_trans _ _ _ H2 H1). Qed.

(** ** [ThermalSensor] *)

(** [_init_sensor] contains every failure of the driver. *)
Lemma _init_sensor_total (self : ThermalSensor.t) (plat : Platform) (s : State) :
  exists self' s',
    ThermalSensor._init_sensor self plat s = (Ok self', s') /\
    measurements s' = measurements s /\
    running s' = running s /\
    threads s' = threads s.
Proof.
  unfold ThermalSensor._init_sensor, try_except, bind, call, raise, ret,
    logger_info, logger_error, log; simpl.
  destruct (BME280_AVAILABLE plat); simpl;
    [destruct (board_I2C plat); simpl;
     [destruct (Adafruit_BME280_I2C plat (ThermalSensor.i2c_address self)); simpl |] |];
    eexists; eexists; (split; [reflexivity | simpl; auto]).
Qed.

Lemma _init_sensor_offsets (self self' : ThermalSensor.t) (plat : Platform)
    (s s' : State) (dev : Adafruit_BME280) :
  ThermalSensor._init_sensor self plat s = (Ok self', s') ->
  ThermalSensor.sensor self' = Some dev ->
  ThermalSensor.config self' = ThermalSensor.config self /\ calibrated_from self'.
Proof.
  unfold ThermalSensor._init_sensor, try_except, bind, call, raise, ret,
    logger_info, logger_error, log; simpl.
  destruct (BME280_AVAILABLE plat); simpl;
    [destruct (board_I2C plat); simpl;
     [destruct (Adafruit_BME280_I2C plat (ThermalSensor.i2c_address self)); simpl |] |];
    intros H Hdev; inversion H; subst; simpl in *; try discriminate.
  unfold calibrated_from; simpl. auto.
Qed.

Lemma __init___offsets (config : Config.t) (plat : Platform) (s s' : State)
    (self : ThermalSensor.t) (dev : Adafruit_BME280) :
  ThermalSensor.__init__ config plat s = (Ok self, s') ->
  ThermalSensor.sensor self = Some dev ->
  Config.sensor config = Some (ThermalSensor.config self) /\ calibrated_from self.
Proof.
  unfold ThermalSensor.__init__, bind, getitem, ret, raise.
  destruct (Config.sensor config) as [section |]; [| discriminate].
  destruct (Config.i2c_bus section); [| discriminate].
  destruct (Config.i2c_address section); [| discriminate].
  intros H Hdev.
  destruct (_init_sensor_offsets _ _ _ _ _ _ H Hdev) as [Hc Hcal].
  simpl in Hc. rewrite Hc. auto.
Qed.

(** [read] returns to its caller whatever the device does, and only ever
    writes to the log. *)
Lemma read_total (self : ThermalSensor.t) (env : Env) (s : State) :
  exists o s',
    ThermalSensor.read self env s = (Ok o, s') /\
    measurements s' = measurements s /\
    running s' = running s /\
    threads s' = threads s.
Proof.
  unfold ThermalSensor.read, try_except, bind, call, getattr, raise, ret,
    logger_error, log; simpl.
  destruct (ThermalSensor.sensor self); [| eauto 6].
  destruct (bme_temperature (bme280 env)), (ThermalSensor.temp_offset self),
    (bme_humidity (bme280 env)), (ThermalSensor.hum_offset self),
    (bme_pressure (bme280 env)), (ThermalSensor.pres_offset self),
    (bme_altitude (bme280 env)); simpl;
    eexists; eexists; (split; [reflexivity | simpl; auto]).
Qed.

Lemma read_hardware_ok (self : ThermalSensor.t) (dev : Adafruit_BME280)
    (env : Env) (s : State) (ot oh op t h p a : Q) :
  ThermalSensor.sensor self = Some dev ->
  ThermalSensor.temp_offset self = Some ot ->
  ThermalSensor.hum_offset self = Some oh ->
  ThermalSensor.pres_offset self = Some op ->
  bme_temperature (bme280 env) = Ok t ->
  bme_humidity (bme280 env) = Ok h ->
  bme_pressure (bme280 env) = Ok p ->
  bme_altitude (bme280 env) = Ok a ->
  ThermalSensor.read self env s =
    (Ok (Some {| SensorReading.timestamp := now env;
                 SensorReading.temperature := (t + ot)%Q;
                 SensorReading.humidity := (h + oh)%Q;
                 SensorReading.pressure := (p + op)%Q;
                 SensorReading.altitude := Some a |}), s).
Proof.
  intros Hdev Hot Hoh Hop Ht Hh Hp Ha.
  unfold ThermalSensor.read, try_except, bind, call, getattr, ret.
  now rewrite Hdev, Ht, Hot, Hh, Hoh, Hp, Hop, Ha.
Qed.

Lemma read_hardware_fault (self : ThermalSensor.t) (dev : Adafruit_BME280)
    (env : Env) (s : State) (ot oh op : Q) :
  ThermalSensor.sensor self = Some dev ->
  ThermalSensor.temp_offset self = Some ot ->
  ThermalSensor.hum_offset self = Some oh ->
  ThermalSensor.pres_offset self = Some op ->
  (exists e, bme_temperature (bme280 env) = Raise e \/
             bme_humidity (bme280 env) = Raise e \/
             bme_pressure (bme280 env) = Raise e \/
             bme_altitude (bme280 env) = Raise e) ->
  exists e',
    ThermalSensor.read self env s =
      (Ok None, emit {| levelname := ERROR; msg := Bme280ReadError e' |} s).
Proof.
  intros Hdev Hot Hoh Hop [e He].
  unfold ThermalSensor.read, try_except, bind, call, getattr, ret,
    logger_error, log.
  rewrite Hdev, Hot, Hoh, Hop. simpl.
  destruct (bme_temperature (bme280 env)) as [t | et]; [| eauto].
  destruct (bme_humidity (bme280 env)) as [h | eh]; [| eauto].
  destruct (bme_pressure (bme280 env)) as [p | ep]; [| eauto].
  destruct (bme_altitude (bme280 env)) as [a | ea]; [| eauto].
  destruct He as [He | [He | [He | He]]]; discriminate.
Qed.

(** ** Claims about [ThermalSensor] and [SensorReading] *)

(** C3 (as amended). [is_connected] answers [False] whenever the sensor
    object holds no driver, which is the emulation mode; when it holds
    one, it answers [True] exactly when one read of the temperature
    attribute returns, and it never raises. *)
Theorem C3_is_connected_probe (self : ThermalSensor.t) (env : Env) (s : State) :
  (ThermalSensor.sensor self = None ->
   ThermalSensor.is_connected self env s = (Ok false, s)) /\
  (forall dev, ThermalSensor.sensor self = Some dev ->
     (forall v, bme_temperature (bme280 env) = Ok v ->
        ThermalSensor.is_connected self env s = (Ok true, s)) /\
     (forall e, bme_temperature (bme280 env) = Raise e ->
        ThermalSensor.is_connected self env s = (Ok false, s))).
Proof.
  unfold ThermalSensor.is_connected, try_except, bind, call, ret.
  split.
  - intros H. now rewrite H.
  - intros dev H. rewrite H. split; intros x Hx; now rewrite Hx.
Qed.

Lemma C3_is_connected_probe_witness :
  ThermalSensor.sensor emulated = None /\
  ThermalSensor.is_connected emulated env_noon state0 = (Ok false, state0).
Proof.
  split; [reflexivity |].
  apply (proj1 (C3_is_connected_probe emulated env_noon state0)).
  reflexivity.
Defined.

(** C3, the claim as written, fails: in emulation mode (no driver library,
    so [__init__] leaves [self.sensor] at [None] and [read] serves synthetic
    readings) [is_connected] answers [False], not [True]. *)
Lemma C3_emulation_reports_disconnected :
  fst (ThermalSensor.__init__ SensorMonitor._default_config no_driver state0)
    = Ok emulated /\
  (exists r, fst (ThermalSensor.read emulated env_noon state0) = Ok (Some r)) /\
  fst (ThermalSensor.is_connected emulated env_noon state0) = Ok false /\
  fst (ThermalSensor.is_connected emulated env_noon state0) <> Ok true.
Proof.
  split; [reflexivity |].
  split; [eexists; reflexivity |].
  split; [reflexivity | discriminate].
Qed.

(** C7. A sensor object built by [__init__] that holds a driver returns,
    when the four device attributes answer, a reading whose temperature,
    humidity and pressure are the raw values plus the offsets of the
    configuration (an absent offset being 0), each field on its own; when
    any device attribute raises, [read] logs the error and returns [None]
    to its caller instead of raising. *)
Theorem C7_read_hardware_calibrated
    (config : Config.t) (plat : Platform) (s0 s1 : State)
    (self : ThermalSensor.t) (dev : Adafruit_BME280) (env : Env) (s : State)
    (Hinit : ThermalSensor.__init__ config plat s0 = (Ok self, s1))
    (Hdev : ThermalSensor.sensor self = Some dev) :
  exists section,
    Config.sensor config = Some section /\
    (forall t h p a,
        bme_temperature (bme280 env) = Ok t ->
        bme_humidity (bme280 env) = Ok h ->
        bme_pressure (bme280 env) = Ok p ->
        bme_altitude (bme280 env) = Ok a ->
        ThermalSensor.read self env s =
          (Ok (Some
             {| SensorReading.timestamp := now env;
                SensorReading.temperature :=
                  (t + get (Config.temperature_offset section) 0)%Q;
                SensorReading.humidity :=
                  (h + get (Config.humidity_offset section) 0)%Q;
                SensorReading.pressure :=
                  (p + get (Config.pressure_offset section) 0)%Q;
                SensorReading.altitude := Some a |}), s)) /\
    ((exists e, bme_temperature (bme280 env) = Raise e \/
                bme_humidity (bme280 env) = Raise e \/
                bme_pressure (bme280 env) = Raise e \/
                bme_altitude (bme280 env) = Raise e) ->
     exists e',
       ThermalSensor.read self env s =
         (Ok None, emit {| levelname := ERROR; msg := Bme280ReadError e' |} s)).
Proof.
  destruct (__init___offsets _ _ _ _ _ _ Hinit Hdev) as [Hsec (Ht & Hh & Hp)].
  exists (ThermalSensor.config self). split; [exact Hsec |]. split.
  - intros t h p a Et Eh Ep Ea.
    now apply read_hardware_ok with (dev := dev).
  - intros Hfault. eapply read_hardware_fault; eauto.
Qed.

Lemma C7_read_hardware_calibrated_witness :
  ThermalSensor.__init__ calibrated with_driver state0
    = (Ok calibrated_sensor, calibrated_state) /\
  ThermalSensor.sensor calibrated_sensor = Some calibrated_driver /\
  ThermalSensor.read calibrated_sensor env_noon calibrated_state =
    (Ok (Some {| SensorReading.timestamp := noon;
                 SensorReading.temperature := ((2150 # 100) + -(1 # 2))%Q;
                 SensorReading.humidity := (40 + 2)%Q;
                 SensorReading.pressure := (1000 + 0)%Q;
                 SensorReading.altitude := Some 120%Q |}), calibrated_state).
Proof.
  split; [reflexivity |]. split; [reflexivity |].
  destruct (C7_read_hardware_calibrated calibrated with_driver state0
              calibrated_state calibrated_sensor calibrated_driver env_noon
              calibrated_state eq_refl eq_refl)
    as [section [Hsec [Hok _]]].
  injection Hsec as <-.
  exact (Hok _ _ _ _ eq_refl eq_refl eq_refl eq_refl).
Defined.

Lemma temp_variation_cases (hour : Z) :
  ((2 <= hour <= 6)%Z -> ThermalSensor.temp_variation hour = (-3)%Q) /\
  ((12 <= hour <= 16)%Z -> ThermalSensor.temp_variation hour = 3%Q) /\
  (~ (2 <= hour <= 6)%Z -> ~ (12 <= hour <= 16)%Z ->
   ThermalSensor.temp_variation hour = 0%Q).
Proof.
  unfold ThermalSensor.temp_variation.
  destruct (2 <=? hour)%Z eqn:E1, (hour <=? 6)%Z eqn:E2,
    (12 <=? hour)%Z eqn:E3, (hour <=? 16)%Z eqn:E4; simpl;
    repeat split; intros; trivial; lia.
Qed.

Lemma uniform_bounds (a b u : Q) :
  (a <= b)%Q -> (0 <= u)%Q -> (u <= 1)%Q ->
  (a <= uniform a b u)%Q /\ (uniform a b u <= b)%Q.
Proof.
  intros Hab H0 H1. unfold uniform.
  assert (Hp : (0 <= (b - a) * u)%Q) by (apply Qmult_le_0_compat; lra).
  assert (Hq : (0 <= (b - a) * (1 - u))%Q) by (apply Qmult_le_0_compat; lra).
  assert (He : ((b - a) * (1 - u) == (b - a) - (b - a) * u)%Q) by ring.
  split; lra.
Qed.

(** C6. The emulated read never fails: [_read_mock] is a total function
    and [read] returns its reading, state untouched, whenever no driver is
    held.  Its temperature is the base 22 plus the tier of the hour (-3 for
    hours 2 to 6, +3 for hours 12 to 16, 0 otherwise) plus a jitter within
    half a degree, rounded to two decimals, and so lies within 4 degrees
    of the base (indeed within 3.5). *)
Theorem C6_read_mock_bounds (self : ThermalSensor.t) (env : Env) (s : State)
    (Hu : (0 <= random env 0%nat)%Q /\ (random env 0%nat <= 1)%Q) :
  let r := ThermalSensor._read_mock self env in
  let hour := datetime.hour (now env) in
  let jitter := uniform (-(1 # 2)) (1 # 2) (random env 0%nat) in
  (ThermalSensor.sensor self = None ->
   ThermalSensor.read self env s = (Ok (Some r), s)) /\
  (-(1 # 2) <= jitter)%Q /\ (jitter <= 1 # 2)%Q /\
  SensorReading.temperature r =
    round (ThermalSensor.base_temp + ThermalSensor.temp_variation hour + jitter) 2 /\
  ((2 <= hour <= 6)%Z -> ThermalSensor.temp_variation hour = (-3)%Q) /\
  ((12 <= hour <= 16)%Z -> ThermalSensor.temp_variation hour = 3%Q) /\
  (~ (2 <= hour <= 6)%Z -> ~ (12 <= hour <= 16)%Z ->
   ThermalSensor.temp_variation hour = 0%Q) /\
  (ThermalSensor.base_temp - 4 <= SensorReading.temperature r)%Q /\
  (SensorReading.temperature r <= ThermalSensor.base_temp + 4)%Q /\
  (1850 # 100 <= SensorReading.temperature r)%Q /\
  (SensorReading.temperature r <= 2550 # 100)%Q.
Proof.
  intros r hour jitter. destruct Hu as [H0 H1].
  destruct (uniform_bounds (-(1 # 2)) (1 # 2) (random env 0%nat)) as [Jl Ju];
    try assumption; [lra |].
  fold jitter in Jl, Ju.
  destruct (temp_variation_cases hour) as (Hn & Hd & Ho).
  assert (Hb : (1850 # 100 <= SensorReading.temperature r)%Q /\
               (SensorReading.temperature r <= 2550 # 100)%Q).
  { subst r. unfold ThermalSensor._read_mock. simpl.
    fold hour. fold jitter.
    apply round_2_bounds; unfold ThermalSensor.base_temp, ThermalSensor.temp_variation;
      destruct ((2 <=? hour)%Z && (hour <=? 6)%Z);
      [| destruct ((12 <=? hour)%Z && (hour <=? 16)%Z) | |
         destruct ((12 <=? hour)%Z && (hour <=? 16)%Z)]; lra. }
  destruct Hb as [Hlo Hhi].
  repeat split; trivial.
  - intros Hnone. unfold ThermalSensor.read. now rewrite Hnone.
  - unfold ThermalSensor.base_temp. lra.
  - unfold ThermalSensor.base_temp. lra.
Qed.

Lemma C6_read_mock_bounds_witness :
  ((0 <= random env_noon 0%nat)%Q /\ (random env_noon 0%nat <= 1)%Q) /\
  (18 <= SensorReading.temperature (ThermalSensor._read_mock emulated env_noon))%Q /\
  (SensorReading.temperature (ThermalSensor._read_mock emulated env_noon) <= 26)%Q.
Proof.
  assert (Hu : (0 <= random env_noon 0%nat)%Q /\ (random env_noon 0%nat <= 1)%Q)
    by (split; discriminate).
  split; [exact Hu |].
  destruct (C6_read_mock_bounds emulated env_noon state0 Hu)
    as (_ & _ & _ & _ & _ & _ & _ & Hlo & Hhi & _).
  split; [exact Hlo | exact Hhi].
Defined.

(** C10. [to_dict] tests the altitude by truth value: a reading whose
    altitude is zero is serialised with [altitude] null, exactly as one
    whose altitude is absent; any other altitude is serialised rounded to
    two decimals. *)
Theorem C10_to_dict_altitude (r : SensorReading.t) :
  (SensorReading.altitude r = None ->
   lookup "altitude" (SensorReading.to_dict r) = Some JNull) /\
  (forall a, SensorReading.altitude r = Some a -> (a == 0)%Q ->
   lookup "altitude" (SensorReading.to_dict r) = Some JNull) /\
  (forall a, SensorReading.altitude r = Some a -> ~ (a == 0)%Q ->
   lookup "altitude" (SensorReading.to_dict r) = Some (JNumber (round a 2))).
Proof.
  unfold SensorReading.to_dict, SensorReading.truthy. simpl.
  repeat split.
  - intros H. now rewrite H.
  - intros a H Hz. rewrite H.
    apply Qeq_bool_iff in Hz. now rewrite Hz.
  - intros a H Hnz. rewrite H.
    destruct (Qeq_bool a 0) eqn:E; [| reflexivity].
    apply Qeq_bool_iff in E. contradiction.
Qed.

Lemma C10_to_dict_altitude_witness :
  SensorReading.altitude reading_at_sea_level = Some 0%Q /\
  (0 == 0)%Q /\
  lookup "altitude" (SensorReading.to_dict reading_at_sea_level) = Some JNull.
Proof.
  split; [reflexivity |]. split; [reflexivity |].
  apply (proj1 (proj2 (C10_to_dict_altitude reading_at_sea_level)) 0%Q);
    reflexivity.
Defined.

(** ** [SimpleDatabase] *)

Lemma StronglySorted_firstn (R : Row -> Row -> Prop) (n : nat) (l : list Row) :
  StronglySorted R l -> StronglySorted R (firstn n l).
Proof.
  intros H. revert n. induction H as [| x l Hs IH Hall]; intros [| n]; simpl;
    try constructor; auto.
  rewrite Forall_forall in *. intros y Hy. apply Hall.
  rewrite <- (firstn_skipn n l). apply in_or_app. now left.
Qed.

(** In a strongly sorted list every row of a prefix is related to every
    row after it. *)
Lemma StronglySorted_split (R : Row -> Row -> Prop) (n : nat) (l : list Row) :
  StronglySorted R l ->
  forall a b, In a (firstn n l) -> In b (skipn n l) -> R a b.
Proof.
  intros H. revert n. induction H as [| x l Hs IH Hall]; intros [| n] a b; simpl;
    try contradiction.
  intros [<- | Ha] Hb.
  - rewrite Forall_forall in Hall. apply Hall.
    rewrite <- (firstn_skipn n l). apply in_or_app. now right.
  - now apply (IH n).
Qed.

Lemma sql_limit_length (n : Z) (rows : list Row) :
  (0 <= n)%Z -> (Z.of_nat (List.length (sql_limit n rows)) <= n)%Z.
Proof.
  intros Hn. unfold sql_limit.
  destruct (n <? 0)%Z eqn:E; [lia |].
  pose proof (firstn_le_length (Z.to_nat n) rows). lia.
Qed.

(** A negative [LIMIT] does not bound the result. *)
Lemma sql_limit_negative (n : Z) (rows : list Row) :
  (n < 0)%Z -> sql_limit n rows = rows.
Proof.
  intros Hn. unfold sql_limit.
  destruct (n <? 0)%Z eqn:E; [reflexivity | lia].
Qed.

(** C2 (as amended). [get_last_hour] returns exactly the stored rows whose
    timestamp text is strictly after the text of the instant one hour ago
    (a row stamped exactly at that instant is left out, so only rows at or
    after that instant are returned, but not all of them), earliest first;
    [get_recent limit], for a [limit] that is not negative, returns at most
    [limit] rows, latest first, and every stored row it leaves out is no
    later than the ones it returns. Neither query changes the state. *)
Theorem C2_queries_ordered (self : SimpleDatabase.t) (env : Env) (s : State)
    (limit : Z) (Hlimit : (0 <= limit)%Z) :
  (exists rows,
      SimpleDatabase.get_last_hour self env s = (Ok rows, s) /\
      Permutation rows
        (filter (fun r => String.ltb (datetime.isoformat (hour_ago env)) (timestamp r))
                (measurements s)) /\
      (forall r, In r rows <->
                 In r (measurements s) /\
                 String.ltb (datetime.isoformat (hour_ago env)) (timestamp r) = true) /\
      (forall r, In r rows ->
                 String.leb (datetime.isoformat (hour_ago env)) (timestamp r) = true) /\
      StronglySorted (fun a b => String.leb (timestamp a) (timestamp b) = true) rows) /\
  (exists rows rest,
      SimpleDatabase.get_recent self limit s = (Ok rows, s) /\
      (Z.of_nat (List.length rows) <= limit)%Z /\
      Permutation (rows ++ rest) (measurements s) /\
      (forall a b, In a rows -> In b rest ->
                   String.leb (timestamp b) (timestamp a) = true) /\
      StronglySorted (fun a b => String.leb (timestamp b) (timestamp a) = true) rows).
Proof.
  split.
  - eexists. split; [reflexivity |].
    pose proof (order_by_perm timestamp_asc
                  (filter (fun r => String.ltb (datetime.isoformat (hour_ago env))
                                               (timestamp r))
                          (measurements s))) as Hperm.
    split; [exact Hperm |]. split; [| split].
    + intros r. split; intros H.
      * apply (Permutation_in _ Hperm) in H. apply filter_In in H. exact H.
      * apply (Permutation_in _ (Permutation_sym Hperm)).
        apply filter_In. exact H.
    + intros r H. apply (Permutation_in _ Hperm) in H.
      apply filter_In in H. apply string_ltb_leb. apply H.
    + apply (order_by_strongly_sorted timestamp_asc
               timestamp_asc_total timestamp_asc_trans).
  - pose proof (order_by_strongly_sorted timestamp_desc
                  timestamp_desc_total timestamp_desc_trans (measurements s)) as Hs.
    pose proof (order_by_perm timestamp_desc (measurements s)) as Hperm.
    exists (sql_limit limit (order_by timestamp_desc (measurements s))).
    exists (skipn (Z.to_nat limit) (order_by timestamp_desc (measurements s))).
    split; [reflexivity |].
    split; [now apply sql_limit_length |].
    unfold sql_limit. destruct (limit <? 0)%Z eqn:E; [lia |].
    split; [now rewrite firstn_skipn |].
    split.
    + intros a b Ha Hb.
      exact (StronglySorted_split _ (Z.to_nat limit) _ Hs a b Ha Hb).
    + now apply StronglySorted_firstn.
Qed.

Lemma C2_queries_ordered_witness :
  (0 <= 1)%Z /\
  exists rows rest,
    SimpleDatabase.get_recent database0 1 state_eleven = (Ok rows, state_eleven) /\
    (Z.of_nat (List.length rows) <= 1)%Z /\
    Permutation (rows ++ rest) [row_eleven].
Proof.
  split; [lia |].
  destruct (C2_queries_ordered database0 env_noon state_eleven 1%Z)
    as [_ (rows & rest & Hq & Hlen & Hperm & _)]; [lia |].
  exists rows, rest. auto.
Defined.

(** C2, the claim as written, fails at the boundary: a row whose timestamp
    equals the instant one hour ago satisfies "timestamp >= since" and is
    not returned. *)
Lemma C2_boundary_row_left_out :
  In row_eleven (measurements state_eleven) /\
  String.leb (datetime.isoformat (hour_ago env_noon)) (timestamp row_eleven) = true /\
  SimpleDatabase.get_last_hour database0 env_noon state_eleven
    = (Ok [], state_eleven).
Proof.
  split; [left; reflexivity |]. split; reflexivity.
Qed.

(** ** [SensorMonitor] *)

Lemma is_connected_total (self : ThermalSensor.t) (env : Env) (s : State) :
  exists b, ThermalSensor.is_connected self env s = (Ok b, s).
Proof.
  unfold ThermalSensor.is_connected, try_except, bind, call, ret.
  destruct (ThermalSensor.sensor self); [| eauto].
  destruct (bme_temperature (bme280 env)); eauto.
Qed.

Lemma read_interval_ok (self : SensorMonitor.t) (s : State)
    (section : Config.SensorSection) (interval : Z) :
  Config.sensor (SensorMonitor.config self) = Some section ->
  Config.read_interval section = Some interval ->
  SensorMonitor.read_interval self s = (Ok interval, s).
Proof.
  intros Hs Hi. unfold SensorMonitor.read_interval, bind, getitem, ret.
  now rewrite Hs, Hi.
Qed.

(** C4. [api_history] asked for one hour (or for no span at all, the
    default being 1) answers with the rows of [get_last_hour]; asked for a
    span above one hour, with a read interval configured and not zero, it
    answers with the rows of [get_recent limit] where [limit] is the span
    times 60, floor-divided by the read interval. *)
Theorem C4_api_history_dispatch (self : SensorMonitor.t) (env : Env) (s : State)
    (hours interval : Z) (section : Config.SensorSection)
    (Hspan : (1 < hours)%Z)
    (Hsection : Config.sensor (SensorMonitor.config self) = Some section)
    (Hinterval : Config.read_interval section = Some interval)
    (Hnonzero : interval <> 0%Z) :
  (exists rows,
      SimpleDatabase.get_last_hour (SensorMonitor.db self) env s = (Ok rows, s) /\
      SensorMonitor.api_history self env (Some 1%Z) s =
        (Ok {| hist_success := true; hist_data := rows |}, s) /\
      SensorMonitor.api_history self env None s =
        (Ok {| hist_success := true; hist_data := rows |}, s)) /\
  (exists rows,
      SimpleDatabase.get_recent (SensorMonitor.db self) (hours * 60 / interval) s
        = (Ok rows, s) /\
      SensorMonitor.api_history self env (Some hours) s =
        (Ok {| hist_success := true; hist_data := rows |}, s)).
Proof.
  split.
  - eexists. repeat split; reflexivity.
  - eexists. split; [reflexivity |].
    unfold SensorMonitor.api_history, SensorMonitor.read_interval,
      SensorMonitor.floordiv, bind, getitem, get, ret, raise.
    rewrite Hsection, Hinterval.
    destruct (hours =? 1)%Z eqn:E1; [lia |].
    destruct (interval =? 0)%Z eqn:E0; [lia |].
    reflexivity.
Qed.

Lemma C4_api_history_dispatch_witness :
  (1 < 3)%Z /\
  SensorMonitor.api_history emulated_monitor env_noon (Some 3%Z) state_eleven =
    (Ok {| hist_success := true;
           hist_data := sql_limit (3 * 60 / 10)
                          (order_by timestamp_desc (measurements state_eleven)) |},
     state_eleven).
Proof.
  split; [lia |].
  destruct (C4_api_history_dispatch emulated_monitor env_noon state_eleven
              3%Z 10%Z _ eq_refl eq_refl eq_refl)
    as [_ [rows [Hq Hh]]]; [discriminate |].
  injection Hq as <-. exact Hh.
Defined.

(** C5. [api_current] always answers; its [stats] are what [read]
    returned. When that is a reading, the table has gained, before the
    answer is built, exactly one row carrying the reading's temperature,
    humidity and pressure (stamped with the time of the save, under the
    next rowid); when [read] returned [None] the table is unchanged. *)
Theorem C5_api_current_saves (self : SensorMonitor.t) (env : Env) (s : State) :
  exists o s1 resp s',
    ThermalSensor.read (SensorMonitor.sensor self) env s = (Ok o, s1) /\
    SensorMonitor.api_current self env s = (Ok resp, s') /\
    cur_stats resp = o /\
    match o with
    | Some r =>
        measurements s' =
          measurements s ++
          [{| id := next_rowid (measurements s);
              timestamp := datetime.isoformat (now env);
              temperature := SensorReading.temperature r;
              humidity := SensorReading.humidity r;
              pressure := SensorReading.pressure r |}]
    | None => measurements s' = measurements s
    end.
Proof.
  destruct (read_total (SensorMonitor.sensor self) env s)
    as (o & s1 & Hread & Hm & _ & _).
  exists o, s1.
  unfold SensorMonitor.api_current.
  rewrite (bind_ok _ _ _ _ _ Hread).
  destruct o as [r |].
  - pose (s2 := snd (SimpleDatabase.save_reading (SensorMonitor.db self) env
                       (SensorReading.temperature r) (SensorReading.humidity r)
                       (SensorReading.pressure r) s1)).
    assert (Hsave : SimpleDatabase.save_reading (SensorMonitor.db self) env
                      (SensorReading.temperature r) (SensorReading.humidity r)
                      (SensorReading.pressure r) s1 = (Ok tt, s2))
      by reflexivity.
    destruct (is_connected_total (SensorMonitor.sensor self) env s2) as [b Hb].
    exists {| cur_success := true; cur_sensor_connected := b; cur_stats := Some r |}.
    exists s2.
    rewrite (bind_ok _ _ _ _ _ Hsave), (bind_ok _ _ _ _ _ Hb).
    repeat split; trivial.
    subst s2. unfold SimpleDatabase.save_reading. simpl. now rewrite Hm.
  - destruct (is_connected_total (SensorMonitor.sensor self) env s1) as [b Hb].
    exists {| cur_success := true; cur_sensor_connected := b; cur_stats := None |}.
    exists s1.
    rewrite (bind_ok _ _ s1 s1 tt) by reflexivity.
    rewrite (bind_ok _ _ _ _ _ Hb).
    repeat split; trivial.
Qed.

(** One cycle of the collection loop reads the sensor and sleeps; with an
    interval that [time.sleep] accepts it returns normally and leaves the
    table, the flag and the threads as they were. *)
Lemma cycle_frame (self : SensorMonitor.t) (interval : Z) (env : Env) (s : State) :
  (0 <= interval)%Z ->
  exists s',
    SensorMonitor.cycle self interval env s = (Ok tt, s') /\
    measurements s' = measurements s /\
    running s' = running s /\
    threads s' = threads s.
Proof.
  intros Hi.
  destruct (read_total (SensorMonitor.sensor self) env s)
    as (o & s1 & Hread & Hm & Hr & Ht).
  assert (Hsleep : forall st, sleep interval st = (Ok tt, st)).
  { intros st. unfold sleep. destruct (interval <? 0)%Z eqn:E; [lia | reflexivity]. }
  exists s1. split; [| auto].
  unfold SensorMonitor.cycle, try_except.
  rewrite (bind_ok _ _ _ _ _ Hread).
  destruct o as [r |].
  - rewrite (bind_ok _ _ s1 s1 tt) by reflexivity. now rewrite Hsleep.
  - rewrite (bind_ok _ _ s1 s1 tt) by reflexivity. now rewrite Hsleep.
Qed.

(** With a negative interval [time.sleep] raises inside the [try], and
    again inside the handler: the exception leaves the cycle. *)
Lemma cycle_negative_interval (self : SensorMonitor.t) (interval : Z)
    (env : Env) (s : State) :
  (interval < 0)%Z ->
  exists s', SensorMonitor.cycle self interval env s = (Raise ValueError, s').
Proof.
  intros Hi.
  destruct (read_total (SensorMonitor.sensor self) env s)
    as (o & s1 & Hread & _).
  assert (Hsleep : forall st, sleep interval st = (Raise ValueError, st)).
  { intros st. unfold sleep. destruct (interval <? 0)%Z eqn:E; [reflexivity | lia]. }
  unfold SensorMonitor.cycle, try_except.
  rewrite (bind_ok _ _ _ _ _ Hread).
  assert (Hbody : forall k : Py unit, k s1 = (Ok tt, s1) ->
            bind k (fun _ => sleep interval) s1 = (Raise ValueError, s1)).
  { intros k Hk. now rewrite (bind_ok _ _ _ _ _ Hk), Hsleep. }
  destruct o as [r |]; rewrite Hbody by reflexivity;
    unfold logger_error, log; simpl; unfold bind; rewrite Hsleep; eauto.
Qed.

Lemma while_running_frame (self : SensorMonitor.t) (interval : Z)
    (cycles : list Env) :
  (0 <= interval)%Z ->
  forall s, running s = true ->
  exists s',
    SensorMonitor.while_running self interval cycles s = (Ok Alive, s') /\
    measurements s' = measurements s /\
    running s' = true /\
    threads s' = threads s.
Proof.
  intros Hi. induction cycles as [| env rest IH]; intros s Hrun; simpl.
  - exists s. auto.
  - unfold bind at 1. unfold SensorMonitor.get_running. rewrite Hrun.
    destruct (cycle_frame self interval env s Hi) as (s1 & Hc & Hm & Hr & Ht).
    rewrite (bind_ok _ _ _ _ _ Hc).
    destruct (IH s1) as (s2 & Hw & Hm2 & Hr2 & Ht2); [congruence |].
    exists s2. repeat split; congruence.
Qed.

(** C1 (what the code does). While the monitor is running and the read
    interval is configured and not negative, the collection thread goes
    through every cycle it is followed for and is still alive afterwards,
    and the table holds exactly the rows it held before: however many
    cycles have run and whatever the sensor returned, no row was
    appended. *)
Theorem C1_collection_thread_never_appends
    (self : SensorMonitor.t) (cycles : list Env) (s : State)
    (interval : Z) (section : Config.SensorSection)
    (Hsection : Config.sensor (SensorMonitor.config self) = Some section)
    (Hinterval : Config.read_interval section = Some interval)
    (Hsleep : (0 <= interval)%Z)
    (Hrunning : running s = true) :
  exists s',
    SensorMonitor._data_collection_thread self cycles s = (Ok Alive, s') /\
    measurements s' = measurements s /\
    List.length (measurements s') = List.length (measurements s) /\
    running s' = true.
Proof.
  unfold SensorMonitor._data_collection_thread, logger_info.
  destruct (log_frame INFO CollectionStarted s) as (s0 & Hlog & Hm0 & Hr0 & _).
  rewrite (bind_ok _ _ _ _ _ Hlog).
  rewrite (bind_ok _ _ _ _ _ (read_interval_ok self s0 section interval
                                Hsection Hinterval)).
  destruct (while_running_frame self interval cycles Hsleep s0)
    as (s' & Hw & Hm & Hr & _); [congruence |].
  exists s'. rewrite Hw. repeat split; congruence.
Qed.

Lemma C1_collection_thread_never_appends_witness :
  running state_running = true /\
  exists s',
    SensorMonitor._data_collection_thread emulated_monitor
      [env_noon; env_noon; env_noon] state_running = (Ok Alive, s') /\
    measurements s' = [].
Proof.
  split; [reflexivity |].
  destruct (C1_collection_thread_never_appends emulated_monitor
              [env_noon; env_noon; env_noon] state_running 10%Z _
              eq_refl eq_refl)
    as (s' & Hrun & Hm & _); [lia | reflexivity |].
  exists s'. split; [exact Hrun | exact Hm].
Defined.

(** C8 (as amended). [start] looks at no state: it sets [running] and
    starts one more collection thread every time. Two calls leave the
    flag as one call does, the log and the table untouched, and two more
    threads than before. *)
Theorem C8_start_spawns_each_time (self : SensorMonitor.t) (s : State) :
  exists s1 s2,
    SensorMonitor.start self s = (Ok tt, s1) /\
    SensorMonitor.start self s1 = (Ok tt, s2) /\
    running s1 = true /\ running s2 = true /\
    threads s1 = S (threads s) /\ threads s2 = S (S (threads s)) /\
    records s2 = records s /\ measurements s2 = measurements s.
Proof.
  eexists. eexists. repeat split.
Qed.

(** C8, the claim as written, fails: from the stopped state a second
    [start] does not leave the state of the first; it leaves two
    collection threads where one call leaves one. *)
Lemma C8_second_start_spawns_again :
  running state0 = false /\
  threads (snd (SensorMonitor.start emulated_monitor state0)) = 1%nat /\
  threads (snd ((SensorMonitor.start emulated_monitor ;;
                 SensorMonitor.start emulated_monitor) state0)) = 2%nat /\
  snd ((SensorMonitor.start emulated_monitor ;;
        SensorMonitor.start emulated_monitor) state0)
    <> snd (SensorMonitor.start emulated_monitor state0).
Proof.
  repeat split; discriminate.
Qed.

(** With the built-in configuration the sensor object is always
    constructed, driver or not. *)
Lemma __init___default (plat : Platform) (s : State) :
  exists self s',
    ThermalSensor.__init__ SensorMonitor._default_config plat s = (Ok self, s') /\
    measurements s' = measurements s /\
    running s' = running s /\
    threads s' = threads s.
Proof.
  cbv beta iota delta [ThermalSensor.__init__ SensorMonitor._default_config
                       bind getitem ret Config.sensor Config.i2c_bus
                       Config.i2c_address].
  apply _init_sensor_total.
Qed.

(** C9. When opening or parsing the file at the given path raises,
    [load_config] logs the error and returns the built-in configuration;
    the monitor is then constructed with it, stopped and with the table
    untouched, and [api_health] answers with status ok. *)
Theorem C9_load_config_falls_back
    (fs : string -> result Config.t) (plat : Platform) (config_path : string)
    (e : exn) (env : Env) (s : State)
    (Hraise : fs config_path = Raise e) :
  SensorMonitor.load_config fs config_path s =
    (Ok SensorMonitor._default_config,
     emit {| levelname := ERROR; msg := ConfigLoadError e |} s) /\
  exists self s',
    SensorMonitor.__init__ fs plat config_path s = (Ok self, s') /\
    SensorMonitor.config self = SensorMonitor._default_config /\
    running s' = false /\
    measurements s' = measurements s /\
    exists connected,
      SensorMonitor.api_health self env s' =
        (Ok {| health_status := "ok";
               health_sensor_connected := connected;
               health_timestamp := datetime.isoformat (now env) |}, s').
Proof.
  assert (Hload : SensorMonitor.load_config fs config_path s =
                  (Ok SensorMonitor._default_config,
                   emit {| levelname := ERROR; msg := ConfigLoadError e |} s)).
  { unfold SensorMonitor.load_config, try_except, bind, call. now rewrite Hraise. }
  split; [exact Hload |].
  unfold SensorMonitor.__init__.
  rewrite (bind_ok _ _ _ _ _ Hload).
  pose (s0 := snd (SensorMonitor.set_running false
                     (emit {| levelname := ERROR; msg := ConfigLoadError e |} s))).
  rewrite (bind_ok _ _ _ s0 tt) by reflexivity.
  destruct (__init___default plat s0) as (sensor & s1 & Hs & Hm & Hr & _).
  rewrite (bind_ok _ _ _ _ _ Hs).
  rewrite (bind_ok _ _ s1 s1 {| SimpleDatabase.db_path := "sensor_data.db" |})
    by reflexivity.
  destruct (log_frame INFO MonitorInitialised s1) as (s2 & Hlog & Hm2 & Hr2 & _).
  unfold logger_info. rewrite (bind_ok _ _ _ _ _ Hlog). unfold ret.
  eexists. exists s2. split; [reflexivity |]. simpl.
  split; [reflexivity |].
  split; [rewrite Hr2, Hr; reflexivity |].
  split; [rewrite Hm2, Hm; reflexivity |].
  destruct (is_connected_total sensor env s2) as [b Hb].
  exists b. unfold SensorMonitor.api_health. simpl.
  now rewrite (bind_ok _ _ _ _ _ Hb).
Qed.

Lemma C9_load_config_falls_back_witness :
  no_files "config.yaml"%string = Raise FileNotFoundError /\
  SensorMonitor.load_config no_files "config.yaml" state0 =
    (Ok SensorMonitor._default_config,
     emit {| levelname := ERROR; msg := ConfigLoadError FileNotFoundError |} state0).
Proof.
  split; [reflexivity |].
  exact (proj1 (C9_load_config_falls_back no_files no_driver "config.yaml"
                  FileNotFoundError env_noon state0 eq_refl)).
Defined.

(** * Further properties *)

(** ** Timestamps as texts *)

Lemma lex_eq_r (c : comparison) : lex c Eq = c.
Proof. now destruct c. Qed.

Lemma digit_compare (a b : Z) :
  Ascii.compare (datetime.digit a) (datetime.digit b)
    = (a mod 10 ?= b mod 10)%Z.
Proof.
  unfold datetime.digit.
  pose proof (Z.mod_pos_bound a 10 eq_refl) as Ha.
  pose proof (Z.mod_pos_bound b 10 eq_refl) as Hb.
  set (x := (a mod 10)%Z) in *. set (y := (b mod 10)%Z) in *.
  assert (Hx : (x = 0 \/ x = 1 \/ x = 2 \/ x = 3 \/ x = 4 \/
                x = 5 \/ x = 6 \/ x = 7 \/ x = 8 \/ x = 9)%Z) by lia.
  assert (Hy : (y = 0 \/ y = 1 \/ y = 2 \/ y = 3 \/ y = 4 \/
                y = 5 \/ y = 6 \/ y = 7 \/ y = 8 \/ y = 9)%Z) by lia.
  clearbody x y.
  repeat (destruct Hx as [-> | Hx]); try subst x;
    repeat (destruct Hy as [-> | Hy]); try subst y; reflexivity.
Qed.

(** Comparing by the last digit after the leading ones is comparing the
    numbers. *)
Lemma lex_div_mod (a b : Z) (c : comparison) :
  lex (a / 10 ?= b / 10)%Z (lex (a mod 10 ?= b mod 10)%Z c) = lex (a ?= b)%Z c.
Proof.
  pose proof (Z.div_mod a 10 ltac:(lia)) as Ea.
  pose proof (Z.div_mod b 10 ltac:(lia)) as Eb.
  pose proof (Z.mod_pos_bound a 10 eq_refl) as Ha.
  pose proof (Z.mod_pos_bound b 10 eq_refl) as Hb.
  destruct (Z.compare_spec (a / 10) (b / 10)) as [E | L | G]; simpl.
  - destruct (Z.compare_spec (a mod 10) (b mod 10)) as [E' | L' | G']; simpl.
    + replace (a ?= b)%Z with Eq; [reflexivity |].
      symmetry. apply Z.compare_eq_iff. lia.
    + replace (a ?= b)%Z with Lt; [reflexivity |].
      symmetry. apply Z.compare_lt_iff. lia.
    + replace (a ?= b)%Z with Gt; [reflexivity |].
      symmetry. apply Z.compare_gt_iff. lia.
  - replace (a ?= b)%Z with Lt; [reflexivity |].
    symmetry. apply Z.compare_lt_iff. lia.
  - replace (a ?= b)%Z with Gt; [reflexivity |].
    symmetry. apply Z.compare_gt_iff. lia.
Qed.

(** Two numbers that fit the width compare as their padded texts do,
    ties being decided by what follows. *)
Lemma zfill_compare (w : nat) :
  forall (a b : Z) (acc1 acc2 : string),
    (0 <= a < 10 ^ Z.of_nat w)%Z -> (0 <= b < 10 ^ Z.of_nat w)%Z ->
    String.compare (datetime.zfill w a acc1) (datetime.zfill w b acc2)
      = lex (a ?= b)%Z (String.compare acc1 acc2).
Proof.
  induction w as [| w IH]; intros a b acc1 acc2 Ha Hb.
  - simpl in *. assert (a = 0%Z) by lia. assert (b = 0%Z) by lia. now subst.
  - rewrite Nat2Z.inj_succ, Z.pow_succ_r in Ha, Hb by lia.
    cbn [datetime.zfill].
    rewrite IH.
    + cbn [String.compare]. rewrite digit_compare.
      rewrite <- (lex_div_mod a b (String.compare acc1 acc2)).
      unfold lex. now destruct (a mod 10 ?= b mod 10)%Z.
    + split; [apply Z.div_pos; lia | apply Z.div_lt_upper_bound; lia].
    + split; [apply Z.div_pos; lia | apply Z.div_lt_upper_bound; lia].
Qed.

(** The optional fraction of [isoformat]. *)
Lemma fraction_compare (u1 u2 : Z) :
  (0 <= u1 <= 999999)%Z -> (0 <= u2 <= 999999)%Z ->
  String.compare
    (if (u1 =? 0)%Z then "" else "." ++ datetime.zfill 6 u1 "")%string
    (if (u2 =? 0)%Z then "" else "." ++ datetime.zfill 6 u2 "")%string
    = (u1 ?= u2)%Z.
Proof.
  intros H1 H2.
  destruct (u1 =? 0)%Z eqn:E1, (u2 =? 0)%Z eqn:E2.
  - apply Z.eqb_eq in E1, E2. now subst.
  - apply Z.eqb_eq in E1. apply Z.eqb_neq in E2. subst u1.
    cbn [append String.compare]. symmetry. apply Z.compare_lt_iff. lia.
  - apply Z.eqb_neq in E1. apply Z.eqb_eq in E2. subst u2.
    cbn [append String.compare]. symmetry. apply Z.compare_gt_iff. lia.
  - cbn [append String.compare].
    change (Ascii.compare "." ".") with Eq. cbv iota.
    rewrite zfill_compare by (simpl; lia).
    apply lex_eq_r.
Qed.

Lemma isoformat_compare (d1 d2 : datetime.t) :
  datetime_valid d1 -> datetime_valid d2 ->
  String.compare (datetime.isoformat d1) (datetime.isoformat d2)
    = datetime_compare d1 d2.
Proof.
  intros (Y1 & M1 & D1 & h1 & m1 & s1 & u1) (Y2 & M2 & D2 & h2 & m2 & s2 & u2).
  unfold datetime.isoformat, datetime_compare.
  rewrite zfill_compare by (simpl; lia). f_equal.
  cbn [append String.compare]. change (Ascii.compare "-" "-") with Eq. cbv iota.
  rewrite zfill_compare by (simpl; lia). f_equal.
  cbn [append String.compare]. change (Ascii.compare "-" "-") with Eq. cbv iota.
  rewrite zfill_compare by (simpl; lia). f_equal.
  cbn [append String.compare]. change (Ascii.compare "T" "T") with Eq. cbv iota.
  rewrite zfill_compare by (simpl; lia). f_equal.
  cbn [append String.compare]. change (Ascii.compare ":" ":") with Eq. cbv iota.
  rewrite zfill_compare by (simpl; lia). f_equal.
  cbn [append String.compare]. change (Ascii.compare ":" ":") with Eq. cbv iota.
  rewrite zfill_compare by (simpl; lia). f_equal.
  now apply fraction_compare.
Qed.

Lemma datetime_compare_eq (d1 d2 : datetime.t) :
  datetime_compare d1 d2 = Eq -> d1 = d2.
Proof.
  destruct d1 as [Y1 M1 D1 h1 m1 s1 u1], d2 as [Y2 M2 D2 h2 m2 s2 u2].
  unfold datetime_compare, lex. simpl.
  destruct (Z.compare_spec Y1 Y2); try discriminate.
  destruct (Z.compare_spec M1 M2); try discriminate.
  destruct (Z.compare_spec D1 D2); try discriminate.
  destruct (Z.compare_spec h1 h2); try discriminate.
  destruct (Z.compare_spec m1 m2); try discriminate.
  destruct (Z.compare_spec s1 s2); try discriminate.
  destruct (Z.compare_spec u1 u2); try discriminate.
  intros _. now subst.
Qed.

(** X1. On datetimes within the field ranges, the byte order of the
    [isoformat] texts is the calendar order of the datetimes, whether or
    not the microsecond part is printed, and two datetimes with the same
    text are the same datetime. *)
Theorem X1_isoformat_order (d1 d2 : datetime.t)
    (Hd1 : datetime_valid d1) (Hd2 : datetime_valid d2) :
  (String.ltb (datetime.isoformat d1) (datetime.isoformat d2) = true <->
   datetime_compare d1 d2 = Lt) /\
  (String.leb (datetime.isoformat d1) (datetime.isoformat d2) = true <->
   datetime_compare d1 d2 <> Gt) /\
  (datetime.isoformat d1 = datetime.isoformat d2 -> d1 = d2).
Proof.
  pose proof (isoformat_compare d1 d2 Hd1 Hd2) as H.
  unfold String.ltb, String.leb. rewrite H.
  repeat split.
  - destruct (datetime_compare d1 d2); congruence.
  - intros ->. reflexivity.
  - destruct (datetime_compare d1 d2); congruence.
  - destruct (datetime_compare d1 d2); congruence.
  - intros E. apply datetime_compare_eq. rewrite <- H, E.
    destruct (String.compare (datetime.isoformat d2) (datetime.isoformat d2)) eqn:C;
      trivial;
      pose proof (String.compare_antisym (datetime.isoformat d2)
                    (datetime.isoformat d2)) as A;
      rewrite C in A; discriminate.
Qed.

Lemma X1_isoformat_order_witness :
  datetime_valid eleven /\ datetime_valid half_past_eleven /\
  (String.ltb (datetime.isoformat eleven) (datetime.isoformat half_past_eleven)
     = true <->
   datetime_compare eleven half_past_eleven = Lt).
Proof.
  assert (H1 : datetime_valid eleven) by (unfold datetime_valid; simpl; lia).
  assert (H2 : datetime_valid half_past_eleven)
    by (unfold datetime_valid; simpl; lia).
  split; [exact H1 |]. split; [exact H2 |].
  exact (proj1 (X1_isoformat_order eleven half_past_eleven H1 H2)).
Defined.

(** ** More on [SimpleDatabase] *)

(** X2. A stored row whose timestamp is the text of a datetime [d] is
    returned by [get_last_hour] exactly when the instant one hour ago is
    before [d] in calendar order: the text comparison of the query is a
    comparison of instants. *)
Theorem X2_get_last_hour_by_instant (self : SimpleDatabase.t) (env : Env)
    (s : State) (r : Row) (d : datetime.t)
    (Hin : In r (measurements s))
    (Hstamp : timestamp r = datetime.isoformat d)
    (Hd : datetime_valid d)
    (Hsince : datetime_valid (hour_ago env)) :
  exists rows,
    SimpleDatabase.get_last_hour self env s = (Ok rows, s) /\
    (In r rows <-> datetime_compare (hour_ago env) d = Lt).
Proof.
  eexists. split; [reflexivity |].
  pose proof (order_by_perm timestamp_asc
                (filter (fun r => String.ltb (datetime.isoformat (hour_ago env))
                                             (timestamp r))
                        (measurements s))) as Hperm.
  assert (Hlt : String.ltb (datetime.isoformat (hour_ago env)) (timestamp r) = true
                <-> datetime_compare (hour_ago env) d = Lt).
  { rewrite Hstamp. unfold String.ltb.
    rewrite (isoformat_compare _ _ Hsince Hd).
    destruct (datetime_compare (hour_ago env) d); split; congruence. }
  split; intros H.
  - apply (Permutation_in _ Hperm) in H. apply filter_In in H. now apply Hlt.
  - apply (Permutation_in _ (Permutation_sym Hperm)).
    apply filter_In. split; [exact Hin | now apply Hlt].
Qed.

Lemma X2_get_last_hour_by_instant_witness :
  In row_half_past (measurements state_half_past) /\
  datetime_valid half_past_eleven /\
  datetime_valid (hour_ago env_noon) /\
  exists rows,
    SimpleDatabase.get_last_hour database0 env_noon state_half_past
      = (Ok rows, state_half_past) /\
    (In row_half_past rows <->
     datetime_compare (hour_ago env_noon) half_past_eleven = Lt).
Proof.
  assert (H1 : datetime_valid half_past_eleven)
    by (unfold datetime_valid; simpl; lia).
  assert (H2 : datetime_valid (hour_ago env_noon))
    by (unfold datetime_valid; simpl; lia).
  assert (Hin : In row_half_past (measurements state_half_past))
    by (right; left; reflexivity).
  split; [exact Hin |]. split; [exact H1 |]. split; [exact H2 |].
  exact (X2_get_last_hour_by_instant database0 env_noon state_half_past
           row_half_past half_past_eleven Hin eq_refl H1 H2).
Defined.

(** Rows later than everything stored go to the front of the descending
    order. *)
Lemma order_by_desc_latest (x : Row) (l : list Row) :
  (forall y, In y l -> String.ltb (timestamp y) (timestamp x) = true) ->
  order_by timestamp_desc (l ++ [x]) = x :: order_by timestamp_desc l.
Proof.
  unfold order_by.
  induction l as [| y l IH]; intros H; simpl; [reflexivity |].
  rewrite IH by (intros z Hz; apply H; now right).
  simpl. unfold timestamp_desc at 1.
  assert (Hy : String.ltb (timestamp y) (timestamp x) = true)
    by (apply H; now left).
  unfold String.ltb in Hy. unfold String.leb.
  rewrite String.compare_antisym.
  destruct (String.compare (timestamp y) (timestamp x)); try discriminate.
  reflexivity.
Qed.

(** X3. When the clock text of a save is strictly after every stored
    timestamp, the saved row is the first row of every later
    [get_recent] with a positive limit, followed by what
    [get_recent (limit - 1)] returned before the save; in particular
    [get_recent 1] returns exactly the saved row. *)
Theorem X3_save_then_get_recent (self : SimpleDatabase.t) (env : Env)
    (temp hum pres : Q) (limit : Z) (s : State)
    (Hclock : forall y, In y (measurements s) ->
                String.ltb (timestamp y) (datetime.isoformat (now env)) = true)
    (Hlimit : (1 <= limit)%Z) :
  exists s' before,
    SimpleDatabase.save_reading self env temp hum pres s = (Ok tt, s') /\
    SimpleDatabase.get_recent self (limit - 1) s = (Ok before, s) /\
    SimpleDatabase.get_recent self limit s'
      = (Ok (saved_row env temp hum pres s :: before), s') /\
    SimpleDatabase.get_recent self 1 s'
      = (Ok [saved_row env temp hum pres s], s').
Proof.
  eexists. eexists. split; [reflexivity |]. split; [reflexivity |].
  unfold SimpleDatabase.get_recent. cbn [measurements].
  fold (saved_row env temp hum pres s).
  rewrite order_by_desc_latest by exact Hclock.
  unfold sql_limit.
  destruct (limit <? 0)%Z eqn:E; [lia |].
  destruct (limit - 1 <? 0)%Z eqn:E'; [lia |].
  replace (Z.to_nat limit) with (S (Z.to_nat (limit - 1))) by lia.
  split; reflexivity.
Qed.

Lemma X3_save_then_get_recent_witness :
  (forall y, In y (measurements state_eleven) ->
     String.ltb (timestamp y) (datetime.isoformat (now env_half_past)) = true) /\
  (1 <= 1)%Z /\
  SimpleDatabase.get_recent database0 1 state_half_past
    = (Ok [row_half_past], state_half_past).
Proof.
  assert (Hclock : forall y, In y (measurements state_eleven) ->
            String.ltb (timestamp y) (datetime.isoformat (now env_half_past)) = true).
  { intros y [<- | []]. reflexivity. }
  split; [exact Hclock |]. split; [lia |].
  destruct (X3_save_then_get_recent database0 env_half_past 21 48 1001 1
              state_eleven Hclock (Z.le_refl 1))
    as (s' & before & Hsave & _ & _ & Hone).
  injection Hsave as <-. exact Hone.
Defined.

Lemma fold_max_ge (l : list Z) (a : Z) :
  (a <= fold_left Z.max l a)%Z /\
  (forall x, In x l -> (x <= fold_left Z.max l a)%Z).
Proof.
  revert a. induction l as [| y l IH]; intros a; simpl.
  - split; [lia | intros x []].
  - destruct (IH (Z.max a y)) as [Ha Hl]. split; [lia |].
    intros x [<- | Hx]; [lia | now apply Hl].
Qed.

Lemma next_rowid_fresh (rows : list Row) (r : Row) :
  In r rows -> (id r < next_rowid rows)%Z.
Proof.
  destruct rows as [| r0 rest]; [intros [] |].
  intros Hin. unfold next_rowid.
  destruct (fold_max_ge (map id rest) (id r0)) as [H0 Hrest].
  destruct Hin as [<- | Hin]; [lia |].
  specialize (Hrest (id r) (in_map id _ _ Hin)). lia.
Qed.

(** X4. [save_reading] keeps every stored row, in place, and appends one
    row whose id is above every id in use; a table whose ids are distinct
    keeps distinct ids, and the log, the flag and the threads are not
    touched. *)
Theorem X4_save_reading_fresh_id (self : SimpleDatabase.t) (env : Env)
    (temp hum pres : Q) (s : State)
    (Hids : NoDup (map id (measurements s))) :
  exists s',
    SimpleDatabase.save_reading self env temp hum pres s = (Ok tt, s') /\
    measurements s' = measurements s ++ [saved_row env temp hum pres s] /\
    (forall r, In r (measurements s) ->
               (id r < id (saved_row env temp hum pres s))%Z) /\
    NoDup (map id (measurements s')) /\
    records s' = records s /\ running s' = running s /\ threads s' = threads s.
Proof.
  eexists. split; [reflexivity |]. cbn [measurements records running threads].
  fold (saved_row env temp hum pres s).
  split; [reflexivity |]. split; [| split; [| auto]].
  - intros r Hr. now apply next_rowid_fresh.
  - rewrite map_app. simpl.
    apply NoDup_app; [exact Hids | repeat constructor; intros [] |].
    intros x Hx [<- | []].
    apply in_map_iff in Hx. destruct Hx as (r & Er & Hr).
    pose proof (next_rowid_fresh _ _ Hr). lia.
Qed.

Lemma X4_save_reading_fresh_id_witness :
  NoDup (map id (measurements state_eleven)) /\
  exists s',
    SimpleDatabase.save_reading database0 env_half_past 21 48 1001 state_eleven
      = (Ok tt, s') /\
    NoDup (map id (measurements s')).
Proof.
  assert (Hids : NoDup (map id (measurements state_eleven)))
    by (repeat constructor; intros []).
  split; [exact Hids |].
  destruct (X4_save_reading_fresh_id database0 env_half_past 21 48 1001
              state_eleven Hids)
    as (s' & Hsave & _ & _ & Hnd & _).
  exists s'. split; [exact Hsave | exact Hnd].
Defined.

(** X5. A limit that is at least the number of stored rows drops none:
    [get_recent] then returns every stored row once, latest first, and
    the limit 0 returns no row. *)
Theorem X5_get_recent_whole_table (self : SimpleDatabase.t) (limit : Z)
    (s : State)
    (Hlimit : (Z.of_nat (List.length (measurements s)) <= limit)%Z) :
  (exists rows,
      SimpleDatabase.get_recent self limit s = (Ok rows, s) /\
      Permutation rows (measurements s) /\
      StronglySorted (fun a b => String.leb (timestamp b) (timestamp a) = true)
        rows) /\
  SimpleDatabase.get_recent self 0 s = (Ok [], s).
Proof.
  split; [| reflexivity].
  eexists. split; [reflexivity |].
  pose proof (order_by_perm timestamp_desc (measurements s)) as Hperm.
  assert (E : sql_limit limit (order_by timestamp_desc (measurements s))
              = order_by timestamp_desc (measurements s)).
  { unfold sql_limit. destruct (limit <? 0)%Z eqn:En; [reflexivity |].
    apply firstn_all2. rewrite (Permutation_length Hperm). lia. }
  rewrite E. split; [exact Hperm |].
  apply (order_by_strongly_sorted timestamp_desc
           timestamp_desc_total timestamp_desc_trans).
Qed.

Lemma X5_get_recent_whole_table_witness :
  (Z.of_nat (List.length (measurements state_half_past)) <= 100)%Z /\
  exists rows,
    SimpleDatabase.get_recent database0 100 state_half_past
      = (Ok rows, state_half_past) /\
    Permutation rows (measurements state_half_past).
Proof.
  assert (H : (Z.of_nat (List.length (measurements state_half_past)) <= 100)%Z)
    by (simpl; lia).
  split; [exact H |].
  destruct (X5_get_recent_whole_table database0 100 state_half_past H)
    as [(rows & Hq & Hperm & _) _].
  exists rows. split; [exact Hq | exact Hperm].
Defined.

(** ** More on [ThermalSensor] *)

(** X6. With the [sensor] section, [i2c_bus] and [i2c_address]
    configured, constructing the sensor object never raises. It holds a
    driver, with the offsets of the configuration, exactly when the
    library was imported and both [board.I2C()] and the driver's
    constructor returned, and then one INFO record is logged; in every
    other case it holds none (emulation mode) and one ERROR record names
    the first failure. *)
Theorem X6_sensor_construction (config : Config.t) (plat : Platform) (s : State)
    (section : Config.SensorSection) (bus addr : Z)
    (Hsection : Config.sensor config = Some section)
    (Hbus : Config.i2c_bus section = Some bus)
    (Haddr : Config.i2c_address section = Some addr) :
  exists self s',
    ThermalSensor.__init__ config plat s = (Ok self, s') /\
    ThermalSensor.config self = section /\
    ThermalSensor.i2c_bus self = bus /\
    ThermalSensor.i2c_address self = addr /\
    (BME280_AVAILABLE plat = true -> board_I2C plat = Ok tt ->
     Adafruit_BME280_I2C plat addr = Ok tt ->
     ThermalSensor.sensor self =
       Some {| address := addr;
               sea_level_pressure :=
                 get (Config.sea_level_pressure section) (101325 # 100) |} /\
     calibrated_from self /\
     s' = emit {| levelname := INFO; msg := Bme280Initialised bus addr |} s) /\
    (BME280_AVAILABLE plat = false ->
     ThermalSensor.sensor self = None /\
     s' = emit {| levelname := ERROR; msg := Bme280InitError ImportError |} s) /\
    (forall e, BME280_AVAILABLE plat = true ->
     board_I2C plat = Raise e \/
     (board_I2C plat = Ok tt /\ Adafruit_BME280_I2C plat addr = Raise e) ->
     ThermalSensor.sensor self = None /\
     s' = emit {| levelname := ERROR; msg := Bme280InitError e |} s).
Proof.
  unfold ThermalSensor.__init__, ThermalSensor._init_sensor, try_except, bind,
    getitem, call, raise, ret, logger_info, logger_error, log.
  rewrite Hsection, Hbus, Haddr. cbn.
  destruct (BME280_AVAILABLE plat); cbn;
    [destruct (board_I2C plat) as [[] | e1]; cbn;
     [destruct (Adafruit_BME280_I2C plat addr) as [[] | e2]; cbn |] |];
    eexists; eexists; (split; [reflexivity |]); cbn;
    (split; [reflexivity |]); (split; [reflexivity |]); (split; [reflexivity |]);
    (split; [intros Ha Hb Hc | split; [intros Ha | intros e' Ha Hb]]);
    try discriminate;
    try (repeat split; reflexivity);
    try (destruct Hb as [Hb | [Hb Hb']]; try discriminate; split; congruence).
Qed.

Lemma X6_sensor_construction_witness :
  Config.sensor calibrated <> None /\
  exists self s',
    ThermalSensor.__init__ calibrated no_driver state0 = (Ok self, s') /\
    ThermalSensor.sensor self = None.
Proof.
  split; [discriminate |].
  destruct (X6_sensor_construction calibrated no_driver state0 _ 1%Z 119%Z
              eq_refl eq_refl eq_refl)
    as (self & s' & Hinit & _ & _ & _ & _ & Hoff & _).
  exists self, s'. split; [exact Hinit |].
  exact (proj1 (Hoff eq_refl)).
Defined.

(** X7. A configuration without the [sensor] section, or whose section
    lacks [i2c_bus] or [i2c_address], makes the constructor raise
    [KeyError] on that key, before the driver is tried and before
    anything is logged. *)
Theorem X7_sensor_construction_missing_key (config : Config.t) (plat : Platform)
    (s : State) :
  (Config.sensor config = None ->
   ThermalSensor.__init__ config plat s = (Raise (KeyError "sensor"), s)) /\
  (forall section,
     Config.sensor config = Some section ->
     (Config.i2c_bus section = None ->
      ThermalSensor.__init__ config plat s = (Raise (KeyError "i2c_bus"), s)) /\
     (forall bus, Config.i2c_bus section = Some bus ->
      Config.i2c_address section = None ->
      ThermalSensor.__init__ config plat s
        = (Raise (KeyError "i2c_address"), s))).
Proof.
  unfold ThermalSensor.__init__, bind, getitem, raise, ret.
  split.
  - intros H. now rewrite H.
  - intros section H. rewrite H. split.
    + intros Hb. now rewrite Hb.
    + intros bus Hb Ha. now rewrite Hb, Ha.
Qed.

Lemma X7_sensor_construction_missing_key_witness :
  Config.sensor empty_config = None /\
  ThermalSensor.__init__ empty_config with_driver state0
    = (Raise (KeyError "sensor"), state0).
Proof.
  split; [reflexivity |].
  exact (proj1 (X7_sensor_construction_missing_key empty_config with_driver
                  state0) eq_refl).
Defined.

(** X8. With the draws of [random.random()] between 0 and 1, the
    emulated reading has its humidity within 5 of 45, its pressure within
    10 of 1013.25 and its altitude present and within 10 of 100 (so never
    serialised as null), and it carries the clock's instant. *)
Theorem X8_read_mock_other_fields (self : ThermalSensor.t) (env : Env)
    (Hdraws : forall k, (0 <= random env k)%Q /\ (random env k <= 1)%Q) :
  let r := ThermalSensor._read_mock self env in
  SensorReading.timestamp r = now env /\
  (40 <= SensorReading.humidity r)%Q /\ (SensorReading.humidity r <= 50)%Q /\
  (100325 # 100 <= SensorReading.pressure r)%Q /\
  (SensorReading.pressure r <= 102325 # 100)%Q /\
  (exists a, SensorReading.altitude r = Some a /\
             (90 <= a)%Q /\ (a <= 110)%Q /\
             SensorReading.truthy (Some a) = true).
Proof.
  intros r.
  destruct (Hdraws 1%nat) as [L1 U1].
  destruct (Hdraws 2%nat) as [L2 U2].
  destruct (Hdraws 3%nat) as [L3 U3].
  destruct (uniform_bounds (-5) 5 (random env 1%nat)) as [Hl1 Hu1];
    try assumption; [lra |].
  destruct (uniform_bounds (-10) 10 (random env 2%nat)) as [Hl2 Hu2];
    try assumption; [lra |].
  destruct (uniform_bounds (-10) 10 (random env 3%nat)) as [Hl3 Hu3];
    try assumption; [lra |].
  split; [reflexivity |].
  assert (Hh : (4000 # 100 <= SensorReading.humidity r)%Q /\
               (SensorReading.humidity r <= 5000 # 100)%Q).
  { subst r. unfold ThermalSensor._read_mock. simpl.
    apply round_2_bounds; lra. }
  assert (Hp : (100325 # 100 <= SensorReading.pressure r)%Q /\
               (SensorReading.pressure r <= 102325 # 100)%Q).
  { subst r. unfold ThermalSensor._read_mock. simpl.
    apply round_2_bounds; lra. }
  destruct Hh as [Hh1 Hh2]. destruct Hp as [Hp1 Hp2].
  split; [lra |]. split; [lra |]. split; [exact Hp1 |]. split; [exact Hp2 |].
  eexists. split; [reflexivity |].
  split; [lra |]. split; [lra |].
  unfold SensorReading.truthy.
  destruct (Qeq_bool (100 + uniform (-10) 10 (random env 3%nat)) 0) eqn:E;
    [| reflexivity].
  apply Qeq_bool_iff in E. lra.
Qed.

Lemma X8_read_mock_other_fields_witness :
  (forall k, (0 <= random env_noon k)%Q /\ (random env_noon k <= 1)%Q) /\
  (40 <= SensorReading.humidity (ThermalSensor._read_mock emulated env_noon))%Q.
Proof.
  assert (H : forall k, (0 <= random env_noon k)%Q /\ (random env_noon k <= 1)%Q)
    by (intros k; split; discriminate).
  split; [exact H |].
  exact (proj1 (proj2 (X8_read_mock_other_fields emulated env_noon H))).
Defined.

(** A value in hundredths is its own rounding to two decimals. *)
Lemma round_half_even_hundredths (z : Z) :
  round_half_even ((z # 100) * inject_Z 100) = z.
Proof.
  unfold round_half_even.
  assert (Hf : Qfloor ((z # 100) * inject_Z 100) = z).
  { unfold Qfloor, Qmult, inject_Z. simpl.
    apply Z.div_mul. lia. }
  rewrite Hf.
  assert (Hc : ((z # 100) * inject_Z 100 - inject_Z z ?= 1 # 2)%Q = Lt).
  { rewrite <- Qlt_alt.
    assert (E : ((z # 100) * inject_Z 100 == inject_Z z)%Q).
    { unfold Qeq, Qmult, inject_Z. simpl. lia. }
    rewrite E. lra. }
  now rewrite Hc.
Qed.

(** X9. Rounding to two decimals twice is rounding once, so [to_dict]
    reports the temperature, humidity and pressure of an emulated reading
    exactly as the reading holds them. *)
Theorem X9_to_dict_keeps_mock_fields (self : ThermalSensor.t) (env : Env) (x : Q) :
  round (round x 2) 2 = round x 2 /\
  let r := ThermalSensor._read_mock self env in
  lookup "temperature" (SensorReading.to_dict r)
    = Some (JNumber (SensorReading.temperature r)) /\
  lookup "humidity" (SensorReading.to_dict r)
    = Some (JNumber (SensorReading.humidity r)) /\
  lookup "pressure" (SensorReading.to_dict r)
    = Some (JNumber (SensorReading.pressure r)).
Proof.
  assert (Hround : forall y, round (round y 2) 2 = round y 2).
  { intros y. unfold round at 1 3.
    change (10 ^ 2)%positive with 100%positive.
    unfold round. change (10 ^ 2)%positive with 100%positive.
    now rewrite round_half_even_hundredths. }
  split; [apply Hround |].
  unfold SensorReading.to_dict, ThermalSensor._read_mock. simpl.
  now rewrite !Hround.
Qed.

(** ** More on [SensorMonitor] *)

(** X10. In emulation mode every call of [api_current] answers with a
    synthetic reading, reports the sensor as not connected, and stores
    one more row carrying that reading's temperature, humidity and
    pressure; nothing is logged. *)
Theorem X10_api_current_emulation (self : SensorMonitor.t) (env : Env) (s : State)
    (Hemulation : ThermalSensor.sensor (SensorMonitor.sensor self) = None) :
  let r := ThermalSensor._read_mock (SensorMonitor.sensor self) env in
  exists s',
    SensorMonitor.api_current self env s =
      (Ok {| cur_success := true;
             cur_sensor_connected := false;
             cur_stats := Some r |}, s') /\
    measurements s' =
      measurements s ++
      [saved_row env (SensorReading.temperature r) (SensorReading.humidity r)
         (SensorReading.pressure r) s] /\
    records s' = records s /\ running s' = running s /\ threads s' = threads s.
Proof.
  intros r.
  unfold SensorMonitor.api_current, ThermalSensor.read,
    ThermalSensor.is_connected.
  rewrite Hemulation.
  unfold bind, ret, SimpleDatabase.save_reading. cbn.
  eexists. split; [reflexivity |]. cbn. auto.
Qed.

Lemma X10_api_current_emulation_witness :
  ThermalSensor.sensor (SensorMonitor.sensor emulated_monitor) = None /\
  exists s',
    SensorMonitor.api_current emulated_monitor env_noon state0 =
      (Ok {| cur_success := true;
             cur_sensor_connected := false;
             cur_stats := Some (ThermalSensor._read_mock emulated env_noon) |},
       s') /\
    List.length (measurements s') = 1%nat.
Proof.
  split; [reflexivity |].
  destruct (X10_api_current_emulation emulated_monitor env_noon state0 eq_refl)
    as (s' & Hcall & Hm & _).
  exists s'. split; [exact Hcall |]. rewrite Hm. reflexivity.
Defined.

(** X11. Once [stop] has returned, a collection thread that reaches the
    head of its loop ends there: it reads nothing, sleeps no more and
    logs nothing, whatever cycles were still to come. [stop] itself
    leaves one INFO record and neither the table nor the threads
    change. *)
Theorem X11_stop_ends_the_loop (self : SensorMonitor.t) (interval : Z)
    (cycles : list Env) (s : State) :
  cycles <> [] ->
  exists s',
    SensorMonitor.stop self s = (Ok tt, s') /\
    s' = emit {| levelname := INFO; msg := MonitorStopped |}
           {| records := records s; measurements := measurements s;
              running := false; threads := threads s |} /\
    SensorMonitor.while_running self interval cycles s' = (Ok Returned, s').
Proof.
  intros Hne. eexists. split; [reflexivity |]. split; [reflexivity |].
  destruct cycles as [| env rest]; [contradiction |]. reflexivity.
Qed.

Lemma X11_stop_ends_the_loop_witness :
  [env_noon; env_noon] <> [] /\
  exists s',
    SensorMonitor.stop emulated_monitor state_running = (Ok tt, s') /\
    SensorMonitor.while_running emulated_monitor 10 [env_noon; env_noon] s'
      = (Ok Returned, s').
Proof.
  split; [discriminate |].
  destruct (X11_stop_ends_the_loop emulated_monitor 10 [env_noon; env_noon]
              state_running)
    as (s' & Hstop & _ & Hloop); [discriminate |].
  exists s'. split; [exact Hstop | exact Hloop].
Defined.

(** X12. A [stop] followed by a [start] before the collection thread has
    looked at the flag does not end that thread: it runs all the cycles
    it is followed for, while [start] has added one more thread. *)
Theorem X12_stop_start_keeps_old_thread (self : SensorMonitor.t) (interval : Z)
    (cycles : list Env) (s : State)
    (Hsleep : (0 <= interval)%Z) :
  exists s1 s2,
    (SensorMonitor.stop self ;; SensorMonitor.start self) s = (Ok tt, s1) /\
    running s1 = true /\
    threads s1 = S (threads s) /\
    SensorMonitor.while_running self interval cycles s1 = (Ok Alive, s2) /\
    measurements s2 = measurements s.
Proof.
  pose (s1 := snd ((SensorMonitor.stop self ;; SensorMonitor.start self) s)).
  assert (H1 : (SensorMonitor.stop self ;; SensorMonitor.start self) s
               = (Ok tt, s1)) by reflexivity.
  assert (Hr : running s1 = true) by reflexivity.
  destruct (while_running_frame self interval cycles Hsleep s1 Hr)
    as (s2 & Hw & Hm & _).
  exists s1, s2. repeat split; trivial.
Qed.

Lemma X12_stop_start_keeps_old_thread_witness :
  (0 <= 10)%Z /\
  exists s1 s2,
    (SensorMonitor.stop emulated_monitor ;; SensorMonitor.start emulated_monitor)
      state_running = (Ok tt, s1) /\
    threads s1 = 2%nat /\
    SensorMonitor.while_running emulated_monitor 10 [env_noon] s1 = (Ok Alive, s2).
Proof.
  split; [lia |].
  destruct (X12_stop_start_keeps_old_thread emulated_monitor 10 [env_noon]
              state_running)
    as (s1 & s2 & H1 & _ & Ht & Hw & _); [lia |].
  exists s1, s2. repeat split; trivial.
Defined.

Lemma cycle_negative_interval_log (self : SensorMonitor.t) (interval : Z)
    (env : Env) (s : State) :
  (interval < 0)%Z ->
  exists s1,
    SensorMonitor.cycle self interval env s =
      (Raise ValueError,
       emit {| levelname := ERROR; msg := CollectionError ValueError |} s1) /\
    measurements s1 = measurements s /\
    running s1 = running s /\
    threads s1 = threads s.
Proof.
  intros Hi.
  destruct (read_total (SensorMonitor.sensor self) env s)
    as (o & s1 & Hread & Hm & Hr & Ht).
  assert (Hsleep : forall st, sleep interval st = (Raise ValueError, st)).
  { intros st. unfold sleep. destruct (interval <? 0)%Z eqn:E; [reflexivity | lia]. }
  exists s1. split; [| auto].
  unfold SensorMonitor.cycle, try_except.
  rewrite (bind_ok _ _ _ _ _ Hread).
  assert (Hbody : forall k : Py unit, k s1 = (Ok tt, s1) ->
            bind k (fun _ => sleep interval) s1 = (Raise ValueError, s1)).
  { intros k Hk. now rewrite (bind_ok _ _ _ _ _ Hk), Hsleep. }
  destruct o as [r |]; rewrite Hbody by reflexivity;
    unfold logger_error, log; simpl; unfold bind; now rewrite Hsleep.
Qed.

(** X13. With a negative read interval the collection thread does not
    survive its first cycle: [time.sleep] raises [ValueError] inside the
    [try], the handler logs it and sleeps again, and that second
    [ValueError] leaves the thread, with [running] still true and no row
    stored. *)
Theorem X13_negative_interval_ends_thread (self : SensorMonitor.t)
    (env : Env) (rest : list Env) (s : State)
    (interval : Z) (section : Config.SensorSection)
    (Hsection : Config.sensor (SensorMonitor.config self) = Some section)
    (Hinterval : Config.read_interval section = Some interval)
    (Hnegative : (interval < 0)%Z)
    (Hrunning : running s = true) :
  exists s1,
    SensorMonitor._data_collection_thread self (env :: rest) s =
      (Raise ValueError,
       emit {| levelname := ERROR; msg := CollectionError ValueError |} s1) /\
    measurements s1 = measurements s /\
    running s1 = true.
Proof.
  unfold SensorMonitor._data_collection_thread, logger_info.
  destruct (log_frame INFO CollectionStarted s) as (s0 & Hlog & Hm0 & Hr0 & _).
  rewrite (bind_ok _ _ _ _ _ Hlog).
  rewrite (bind_ok _ _ _ _ _ (read_interval_ok self s0 section interval
                                Hsection Hinterval)).
  cbn [SensorMonitor.while_running].
  rewrite (bind_ok _ _ s0 s0 true)
    by (unfold SensorMonitor.get_running; now rewrite Hr0, Hrunning).
  destruct (cycle_negative_interval_log self interval env s0 Hnegative)
    as (s1 & Hc & Hm & Hr & _).
  rewrite (bind_raise _ _ _ _ _ Hc).
  exists s1. repeat split; congruence.
Qed.

Lemma X13_negative_interval_ends_thread_witness :
  (-5 < 0)%Z /\ running state_running = true /\
  exists s1,
    SensorMonitor._data_collection_thread negative_interval_monitor
      [env_noon; env_noon] state_running =
      (Raise ValueError,
       emit {| levelname := ERROR; msg := CollectionError ValueError |} s1).
Proof.
  split; [lia |]. split; [reflexivity |].
  destruct (X13_negative_interval_ends_thread negative_interval_monitor
              env_noon [env_noon] state_running (-5)%Z _ eq_refl eq_refl)
    as (s1 & Hrun & _); [lia | reflexivity |].
  exists s1. exact Hrun.
Defined.

(** X14. For a span other than one hour [api_history] needs the read
    interval: without the [sensor] section or its [read_interval] it
    raises [KeyError], with an interval of 0 it raises
    [ZeroDivisionError]; nothing is stored or logged on the way. A span
    of exactly one hour never looks at the configuration. *)
Theorem X14_api_history_errors (self : SensorMonitor.t) (env : Env)
    (hours : Z) (s : State)
    (Hspan : hours <> 1%Z) :
  (Config.sensor (SensorMonitor.config self) = None ->
   SensorMonitor.api_history self env (Some hours) s
     = (Raise (KeyError "sensor"), s)) /\
  (forall section,
     Config.sensor (SensorMonitor.config self) = Some section ->
     (Config.read_interval section = None ->
      SensorMonitor.api_history self env (Some hours) s
        = (Raise (KeyError "read_interval"), s)) /\
     (Config.read_interval section = Some 0%Z ->
      SensorMonitor.api_history self env (Some hours) s
        = (Raise ZeroDivisionError, s))) /\
  (exists rows,
     SensorMonitor.api_history self env (Some 1%Z) s
       = (Ok {| hist_success := true; hist_data := rows |}, s)).
Proof.
  unfold SensorMonitor.api_history, SensorMonitor.read_interval,
    SensorMonitor.floordiv, bind, getitem, get, raise, ret.
  apply Z.eqb_neq in Hspan. rewrite Hspan.
  split; [| split].
  - intros H. now rewrite H.
  - intros section H. rewrite H. split; intros Hi; now rewrite Hi.
  - eexists. reflexivity.
Qed.

Lemma X14_api_history_errors_witness :
  2%Z <> 1%Z /\
  SensorMonitor.api_history zero_interval_monitor env_noon (Some 2%Z)
    state_eleven = (Raise ZeroDivisionError, state_eleven).
Proof.
  split; [discriminate |].
  destruct (X14_api_history_errors zero_interval_monitor env_noon 2%Z
              state_eleven) as (_ & H & _); [discriminate |].
  exact (proj2 (H _ eq_refl) eq_refl).
Defined.

(** X15. With a positive read interval, a negative span makes the limit
    negative, which SQLite takes as no limit: [api_history] then answers
    with every stored row, latest first. A span of 0 answers with no
    row. *)
Theorem X15_api_history_negative_span (self : SensorMonitor.t) (env : Env)
    (hours interval : Z) (section : Config.SensorSection) (s : State)
    (Hsection : Config.sensor (SensorMonitor.config self) = Some section)
    (Hinterval : Config.read_interval section = Some interval)
    (Hpositive : (0 < interval)%Z)
    (Hspan : (hours < 0)%Z) :
  (exists rows,
     SensorMonitor.api_history self env (Some hours) s
       = (Ok {| hist_success := true; hist_data := rows |}, s) /\
     Permutation rows (measurements s) /\
     StronglySorted (fun a b => String.leb (timestamp b) (timestamp a) = true)
       rows) /\
  SensorMonitor.api_history self env (Some 0%Z) s
    = (Ok {| hist_success := true; hist_data := [] |}, s).
Proof.
  unfold SensorMonitor.api_history, SensorMonitor.read_interval,
    SensorMonitor.floordiv, SimpleDatabase.get_recent, bind, getitem, get,
    raise, ret.
  rewrite Hsection, Hinterval.
  destruct (interval =? 0)%Z eqn:E0; [lia |].
  split.
  - destruct (hours =? 1)%Z eqn:E1; [lia |].
    eexists. split; [reflexivity |].
    rewrite sql_limit_negative
      by (apply Z.div_lt_upper_bound; lia).
    split; [apply order_by_perm |].
    apply (order_by_strongly_sorted timestamp_desc
             timestamp_desc_total timestamp_desc_trans).
  - cbn. reflexivity.
Qed.

Lemma X15_api_history_negative_span_witness :
  (0 < 10)%Z /\ (-1 < 0)%Z /\
  exists rows,
    SensorMonitor.api_history emulated_monitor env_noon (Some (-1)%Z)
      state_half_past
      = (Ok {| hist_success := true; hist_data := rows |}, state_half_past) /\
    Permutation rows (measurements state_half_past).
Proof.
  split; [lia |]. split; [lia |].
  destruct (X15_api_history_negative_span emulated_monitor env_noon (-1)%Z 10%Z
              _ state_half_past eq_refl eq_refl)
    as [(rows & Hh & Hperm & _) _]; [lia | lia |].
  exists rows. split; [exact Hh | exact Hperm].
Defined.

Lemma monitor_init_fallback (fs : string -> result Config.t) (plat : Platform)
    (config_path : string) (e : exn) (s : State) :
  fs config_path = Raise e ->
  exists self s',
    SensorMonitor.__init__ fs plat config_path s = (Ok self, s') /\
    SensorMonitor.config self = SensorMonitor._default_config /\
    running s' = false /\
    measurements s' = measurements s /\
    threads s' = threads s.
Proof.
  intros Hraise.
  assert (Hload : SensorMonitor.load_config fs config_path s =
                  (Ok SensorMonitor._default_config,
                   emit {| levelname := ERROR; msg := ConfigLoadError e |} s)).
  { unfold SensorMonitor.load_config, try_except, bind, call. now rewrite Hraise. }
  unfold SensorMonitor.__init__.
  rewrite (bind_ok _ _ _ _ _ Hload).
  pose (s0 := snd (SensorMonitor.set_running false
                     (emit {| levelname := ERROR; msg := ConfigLoadError e |} s))).
  rewrite (bind_ok _ _ _ s0 tt) by reflexivity.
  destruct (__init___default plat s0) as (sensor & s1 & Hs & Hm & Hr & Ht).
  rewrite (bind_ok _ _ _ _ _ Hs).
  rewrite (bind_ok _ _ s1 s1 {| SimpleDatabase.db_path := "sensor_data.db" |})
    by reflexivity.
  destruct (log_frame INFO MonitorInitialised s1) as (s2 & Hlog & Hm2 & Hr2 & Ht2).
  unfold logger_info. rewrite (bind_ok _ _ _ _ _ Hlog). unfold ret.
  eexists. exists s2. split; [reflexivity |]. simpl.
  split; [reflexivity |].
  split; [rewrite Hr2, Hr; reflexivity |].
  split; [rewrite Hm2, Hm; reflexivity |].
  rewrite Ht2, Ht. reflexivity.
Qed.

Lemma sensor_init_with_keys (config : Config.t) (plat : Platform) (s : State)
    (section : Config.SensorSection) (bus addr : Z) :
  Config.sensor config = Some section ->
  Config.i2c_bus section = Some bus ->
  Config.i2c_address section = Some addr ->
  exists self s',
    ThermalSensor.__init__ config plat s = (Ok self, s') /\
    measurements s' = measurements s /\
    running s' = running s /\
    threads s' = threads s.
Proof.
  intros Hs Hb Ha.
  unfold ThermalSensor.__init__, bind, getitem, ret.
  rewrite Hs, Hb, Ha.
  apply _init_sensor_total.
Qed.

Lemma test_rounds_frame (sensor : ThermalSensor.t) (world : nat -> Env) (n : nat) :
  forall (i : nat) (s : State),
  exists lines s',
    test_rounds sensor world i n s = (Ok lines, s') /\
    List.length lines = n /\
    (forall l, In l lines ->
       l = PrintReadError \/ exists k t h p, l = PrintReading k t h p) /\
    measurements s' = measurements s /\
    running s' = running s /\
    threads s' = threads s.
Proof.
  induction n as [| n IH]; intros i s.
  - exists [], s. repeat split; trivial. intros l [].
  - cbn [test_rounds].
    destruct (read_total sensor (world i) s) as (o & s1 & Hread & Hm & Hr & Ht).
    rewrite (bind_ok _ _ _ _ _ Hread).
    rewrite (bind_ok _ _ s1 s1 tt) by reflexivity.
    destruct (IH (S i) s1) as (lines & s2 & Hrest & Hlen & Hkind & Hm2 & Hr2 & Ht2).
    rewrite (bind_ok _ _ _ _ _ Hrest). unfold ret.
    eexists. exists s2. split; [reflexivity |].
    split; [simpl; now rewrite Hlen |].
    split; [| repeat split; congruence].
    intros l [<- | Hl]; [| now apply Hkind].
    destruct o; [right; eauto | now left].
Qed.

(** X16. A file that opens and parses is returned by [load_config] as it
    is, unchecked and without a log record; the built-in configuration is
    not consulted. If the document has no [sensor] section the monitor's
    constructor then raises [KeyError] instead of falling back, having
    logged and stored nothing. *)
Theorem X16_load_config_unchecked (fs : string -> result Config.t)
    (plat : Platform) (config_path : string) (config : Config.t) (s : State)
    (Hload : fs config_path = Ok config) :
  SensorMonitor.load_config fs config_path s = (Ok config, s) /\
  (Config.sensor config = None ->
   exists s',
     SensorMonitor.__init__ fs plat config_path s
       = (Raise (KeyError "sensor"), s') /\
     records s' = records s /\
     measurements s' = measurements s /\
     threads s' = threads s).
Proof.
  assert (H : SensorMonitor.load_config fs config_path s = (Ok config, s)).
  { unfold SensorMonitor.load_config, try_except, bind, call, ret.
    now rewrite Hload. }
  split; [exact H |].
  intros Hnone.
  unfold SensorMonitor.__init__.
  rewrite (bind_ok _ _ _ _ _ H).
  pose (s0 := snd (SensorMonitor.set_running false s)).
  rewrite (bind_ok _ _ _ s0 tt) by reflexivity.
  assert (Hs : ThermalSensor.__init__ config plat s0
               = (Raise (KeyError "sensor"), s0)).
  { unfold ThermalSensor.__init__, bind, getitem, raise. now rewrite Hnone. }
  rewrite (bind_raise _ _ _ _ _ Hs).
  exists s0. repeat split.
Qed.

Lemma X16_load_config_unchecked_witness :
  fs_only_device "config.yaml"%string = Ok only_device /\
  SensorMonitor.load_config fs_only_device "config.yaml" state0
    = (Ok only_device, state0) /\
  exists s',
    SensorMonitor.__init__ fs_only_device with_driver "config.yaml" state0
      = (Raise (KeyError "sensor"), s').
Proof.
  split; [reflexivity |].
  destruct (X16_load_config_unchecked fs_only_device with_driver "config.yaml"
              only_device state0 eq_refl) as [Hload Hinit].
  split; [exact Hload |].
  destruct (Hinit eq_refl) as (s' & H & _).
  exists s'. exact H.
Defined.

(** X17. In test mode, when the configuration file does not exist, the
    configuration is the empty dict and [main] ends with
    [KeyError('sensor')] before it has printed, read or logged
    anything. *)
Theorem X17_main_test_mode_without_file (args : Args)
    (path_exists : string -> bool) (fs : string -> result Config.t)
    (plat : Platform) (world : nat -> Env) (s : State)
    (Htest : args_test_sensor args = true)
    (Hmissing : path_exists (args_config args) = false) :
  main args path_exists fs plat world s = (Raise (KeyError "sensor"), s).
Proof.
  unfold main. rewrite Htest, Hmissing. reflexivity.
Qed.

Lemma X17_main_test_mode_without_file_witness :
  args_test_sensor test_args = true /\
  main test_args (fun _ => false) no_files no_driver (fun _ => env_noon) state0
    = (Raise (KeyError "sensor"), state0).
Proof.
  split; [reflexivity |].
  exact (X17_main_test_mode_without_file test_args (fun _ => false) no_files
           no_driver (fun _ => env_noon) state0 eq_refl eq_refl).
Defined.

(** X18. In test mode with a configuration that has the [sensor]
    section and its bus and address, [main] returns after printing seven
    lines: the heading, one line per round of the five rounds (a reading
    or a read error), and the connection line. It stores no row, starts no thread and leaves
    [running] as it was. *)
Theorem X18_main_test_mode (args : Args)
    (path_exists : string -> bool) (fs : string -> result Config.t)
    (plat : Platform) (world : nat -> Env) (s : State)
    (config : Config.t) (section : Config.SensorSection) (bus addr : Z)
    (Htest : args_test_sensor args = true)
    (Hexists : path_exists (args_config args) = true)
    (Hload : fs (args_config args) = Ok config)
    (Hsection : Config.sensor config = Some section)
    (Hbus : Config.i2c_bus section = Some bus)
    (Haddr : Config.i2c_address section = Some addr) :
  exists rounds connected s',
    main args path_exists fs plat world s
      = (Ok (PrintTesting :: rounds ++ [PrintConnected connected]), s') /\
    List.length rounds = 5%nat /\
    (forall l, In l rounds ->
       l = PrintReadError \/ exists k t h p, l = PrintReading k t h p) /\
    measurements s' = measurements s /\
    threads s' = threads s /\
    running s' = running s.
Proof.
  unfold main. rewrite Htest, Hexists.
  rewrite (bind_ok _ _ s s config) by (unfold call; now rewrite Hload).
  destruct (sensor_init_with_keys config plat s section bus addr
              Hsection Hbus Haddr) as (sensor & s1 & Hinit & Hm1 & Hr1 & Ht1).
  rewrite (bind_ok _ _ _ _ _ Hinit).
  destruct (test_rounds_frame sensor world 5 0 s1)
    as (rounds & s2 & Hrounds & Hlen & Hkind & Hm2 & Hr2 & Ht2).
  rewrite (bind_ok _ _ _ _ _ Hrounds).
  destruct (is_connected_total sensor (world 5%nat) s2) as [b Hb].
  rewrite (bind_ok _ _ _ _ _ Hb). unfold ret.
  exists rounds, b, s2.
  split; [reflexivity |]. split; [exact Hlen |]. split; [exact Hkind |].
  repeat split; congruence.
Qed.

Lemma X18_main_test_mode_witness :
  args_test_sensor test_args = true /\
  fs_calibrated (args_config test_args) = Ok calibrated /\
  exists rounds connected s',
    main test_args (fun _ => true) fs_calibrated no_driver (fun _ => env_noon)
      state0
      = (Ok (PrintTesting :: rounds ++ [PrintConnected connected]), s') /\
    List.length rounds = 5%nat /\
    measurements s' = [].
Proof.
  split; [reflexivity |]. split; [reflexivity |].
  destruct (X18_main_test_mode test_args (fun _ => true) fs_calibrated no_driver
              (fun _ => env_noon) state0 calibrated _ 1%Z 119%Z
              eq_refl eq_refl eq_refl eq_refl eq_refl eq_refl)
    as (rounds & connected & s' & Hmain & Hlen & _ & Hm & _).
  exists rounds, connected, s'. repeat split; trivial.
Defined.

(** X19. Outside test mode, when loading the configuration raises,
    [main] still builds the monitor on the built-in configuration and
    starts it: it returns normally with [running] true and one more
    collection thread, and no row stored. *)
Theorem X19_main_starts_with_defaults (args : Args)
    (path_exists : string -> bool) (fs : string -> result Config.t)
    (plat : Platform) (world : nat -> Env) (s : State) (e : exn)
    (Hrun : args_test_sensor args = false)
    (Hraise : fs (args_config args) = Raise e) :
  exists s',
    main args path_exists fs plat world s = (Ok [], s') /\
    running s' = true /\
    threads s' = S (threads s) /\
    measurements s' = measurements s.
Proof.
  unfold main. rewrite Hrun.
  destruct (monitor_init_fallback fs plat (args_config args) e s Hraise)
    as (self & s1 & Hinit & _ & _ & Hm & Ht).
  rewrite (bind_ok _ _ _ _ _ Hinit).
  pose (s2 := snd (SensorMonitor.start self s1)).
  rewrite (bind_ok _ _ s1 s2 tt) by reflexivity.
  exists s2. unfold ret. split; [reflexivity |].
  subst s2. cbn. repeat split; congruence.
Qed.

Lemma X19_main_starts_with_defaults_witness :
  args_test_sensor run_args = false /\
  no_files (args_config run_args) = Raise FileNotFoundError /\
  exists s',
    main run_args (fun _ => false) no_files no_driver (fun _ => env_noon) state0
      = (Ok [], s') /\
    running s' = true /\
    threads s' = 1%nat.
Proof.
  split; [reflexivity |]. split; [reflexivity |].
  destruct (X19_main_starts_with_defaults run_args (fun _ => false) no_files
              no_driver (fun _ => env_noon) state0 FileNotFoundError
              eq_refl eq_refl)
    as (s' & Hmain & Hr & Ht & _).
  exists s'. repeat split; trivial.
Defined.

(** X20. The table is append-only and only [api_current] appends: it
    keeps the stored rows in place and adds at most one, while
    [api_history] and [api_health] leave the whole state as it was, also
    when [api_history] raises, and [start] and [stop] leave the table as
    it was. *)
Theorem X20_table_append_only (self : SensorMonitor.t) (env : Env)
    (hours_arg : option Z) (s : State) :
  (exists tail,
     measurements (snd (SensorMonitor.api_current self env s))
       = measurements s ++ tail /\
     (List.length tail <= 1)%nat) /\
  snd (SensorMonitor.api_history self env hours_arg s) = s /\
  snd (SensorMonitor.api_health self env s) = s /\
  measurements (snd (SensorMonitor.start self s)) = measurements s /\
  measurements (snd (SensorMonitor.stop self s)) = measurements s.
Proof.
  split; [| split; [| split; [| split]]].
  - destruct (read_total (SensorMonitor.sensor self) env s)
      as (o & s1 & Hread & Hm & _ & _).
    unfold SensorMonitor.api_current.
    rewrite (bind_ok _ _ _ _ _ Hread).
    destruct o as [r |].
    + pose (s2 := snd (SimpleDatabase.save_reading (SensorMonitor.db self) env
                         (SensorReading.temperature r) (SensorReading.humidity r)
                         (SensorReading.pressure r) s1)).
      rewrite (bind_ok _ _ s1 s2 tt) by reflexivity.
      destruct (is_connected_total (SensorMonitor.sensor self) env s2) as [b Hb].
      rewrite (bind_ok _ _ _ _ _ Hb). unfold ret. cbn [snd].
      eexists. split; [subst s2; cbn; rewrite Hm; reflexivity | simpl; lia].
    + rewrite (bind_ok _ _ s1 s1 tt) by reflexivity.
      destruct (is_connected_total (SensorMonitor.sensor self) env s1) as [b Hb].
      rewrite (bind_ok _ _ _ _ _ Hb). unfold ret. cbn [snd].
      exists []. rewrite app_nil_r. split; [exact Hm | simpl; lia].
  - unfold SensorMonitor.api_history, SensorMonitor.read_interval,
      SensorMonitor.floordiv, SimpleDatabase.get_recent,
      SimpleDatabase.get_last_hour, bind, getitem, raise, ret.
    destruct (get hours_arg 1 =? 1)%Z; [reflexivity |].
    destruct (Config.sensor (SensorMonitor.config self)) as [section |];
      [| reflexivity].
    destruct (Config.read_interval section) as [interval |]; [| reflexivity].
    destruct (interval =? 0)%Z; reflexivity.
  - unfold SensorMonitor.api_health.
    destruct (is_connected_total (SensorMonitor.sensor self) env s) as [b Hb].
    now rewrite (bind_ok _ _ _ _ _ Hb).
  - reflexivity.
  - reflexivity.
Qed.
